(** * metaflow/plugins/aws/batch/batch_cli.py: the [step] command

    A shallow embedding of the [step] operation of the AWS Batch command line
    plugin: the chunking of the [--input-paths] option into environment
    variables, the back-off before a retry, the merge of the environment
    mapping, and the submit / wait / metadata-sync control flow with its
    Python exception semantics ([try] / [except] / [finally], [sys.exit]). *)

From Stdlib Require Import List String Ascii ZArith Lia Bool Arith.
From Stdlib Require Import DecimalString DecimalNat DecimalZ FinFun.
From Stdlib Require DecimalFacts.
Import ListNotations.
Open Scope string_scope.

Set Implicit Arguments.

(** ** Python exceptions and results *)

(** The exception classes that the operation raises or tells apart.
    [SystemExit] and [KeyboardInterrupt] derive from [BaseException] only;
    every other class derives from [Exception]. [OtherError] stands for any
    other [Exception] subclass a collaborator raises (a backend client error,
    an I/O error, ...), with its class name and message. *)
Inductive exn : Type :=
| SystemExit (code : Z)
| KeyboardInterrupt
| BatchKilledException (msg : string)
| TypeError (msg : string)
| ValueError (msg : string)
| KeyError (key : string)
| AttributeError (msg : string)
| OverflowError (msg : string)
| OtherError (cls msg : string).

(** [isinstance(e, Exception)] *)
Definition is_Exception (e : exn) : bool :=
  match e with
  | SystemExit _ | KeyboardInterrupt => false
  | _ => true
  end.

(** [isinstance(e, BatchKilledException)] *)
Definition is_BatchKilledException (e : exn) : bool :=
  match e with
  | BatchKilledException _ => true
  | _ => false
  end.

(** The result of evaluating a Python expression or statement. *)
Inductive outcome (A : Type) : Type :=
| Return (a : A)
| Raise (e : exn).
Arguments Return {A} a.
Arguments Raise {A} e.

Definition obind {A B} (m : outcome A) (k : A -> outcome B) : outcome B :=
  match m with
  | Return a => k a
  | Raise e => Raise e
  end.

Declare Scope outcome_scope.
Delimit Scope outcome_scope with outcome.
Notation "x <- m ;; k" := (obind m (fun x => k))
  (at level 100, m at next level, right associativity) : outcome_scope.

(** ** Python dictionaries

    A [dict] keeps its keys in insertion order; assigning to a key that is
    present replaces the value in place, assigning to a new key appends. *)

Definition dict (V : Type) : Type := list (string * V).

Fixpoint dict_get {V} (d : dict V) (k : string) : option V :=
  match d with
  | [] => None
  | (k', v) :: d' => if String.eqb k' k then Some v else dict_get d' k
  end.

Fixpoint dict_set {V} (d : dict V) (k : string) (v : V) : dict V :=
  match d with
  | [] => [(k, v)]
  | (k', v') :: d' =>
      if String.eqb k' k then (k', v) :: d' else (k', v') :: dict_set d' k v
  end.

(** [d.update(other)] *)
Definition dict_update {V} (d other : dict V) : dict V :=
  fold_left (fun acc kv => dict_set acc (fst kv) (snd kv)) other d.

Definition dict_keys {V} (d : dict V) : list string := map fst d.
Definition dict_values {V} (d : dict V) : list V := map snd d.

(** [d.get(k, default)] *)
Definition dict_get_default {V} (d : dict V) (k : string) (default : V) : V :=
  match dict_get d k with
  | Some v => v
  | None => default
  end.

(** ** Strings, ranges and formatting *)

(** ["%d" % n] for a non-negative [int] *)
Definition string_of_nat (n : nat) : string :=
  NilZero.string_of_uint (Nat.to_uint n).

(** ["%d" % z] and [str(z)] for an [int] *)
Definition string_of_Z (z : Z) : string :=
  NilZero.string_of_int (Z.to_int z).

(** [s[a:b]] for [0 <= a <= b]: the slice is clipped to the string. *)
Definition py_slice (s : string) (a b : nat) : string :=
  String.substring a (b - a) s.

(** [len(s.encode("utf-8"))], the size of a [str] in bytes. A character of
    a Rocq string stands for the code point of its number (all are below
    256): those below 128 take one byte, the others two. *)
Fixpoint utf8_size (s : string) : N :=
  match s with
  | EmptyString => 0%N
  | String c s' =>
      ((if (nat_of_ascii c <? 128)%nat then 1 else 2) + utf8_size s')%N
  end.

(** [sep.join(parts)] *)
Definition py_join (sep : string) (parts : list string) : string :=
  String.concat sep parts.

Fixpoint range_from (fuel i stop step : nat) : list nat :=
  match fuel with
  | 0 => []
  | S fuel' =>
      if (i <? stop)%nat then i :: range_from fuel' (i + step) stop step else []
  end.

(** [range(start, stop, step)] for non-negative arguments. A zero step is a
    [ValueError]; otherwise [stop - start] iterations are always enough. *)
Definition py_range (start stop step : nat) : outcome (list nat) :=
  if (step =? 0)%nat then Raise (ValueError "range() arg 3 must not be zero")
  else Return (range_from (stop - start) start stop step).

(** ** The input-paths encoder (lines 180-188) *)

Definition max_size : nat := 30 * 1024.

(** ["METAFLOW_INPUT_PATHS_%d" % n] *)
Definition input_paths_key (n : nat) : string :=
  "METAFLOW_INPUT_PATHS_" ++ string_of_nat n.

(** The dictionary comprehension over [range(0, len(input_paths), size)]. *)
Definition split_input_paths (size : nat) (input_paths : string)
  : outcome (dict string) :=
  (idxs <- py_range 0 (String.length input_paths) size ;;
   Return (fold_left
             (fun d i => dict_set d (input_paths_key (i / size))
                                    (py_slice input_paths i (i + size)))
             idxs []))%outcome.

(** ["".join("${%s}" % s for s in split_vars.keys())] *)
Definition reconstruction (split_vars : dict string) : string :=
  py_join "" (map (fun s => "${" ++ s ++ "}") (dict_keys split_vars)).

(** Truth value of a [str]. *)
Definition str_truthy (s : string) : bool :=
  negb (String.eqb s "").

(** Lines 180-188: from [kwargs.get("input_paths")] to the pair of
    [split_vars] and the new value of [kwargs["input_paths"]]. [None] of the
    first component is Python's [None]; [None] of the second is a parameter
    that is absent (or [None]). *)
Definition encode_input_paths (input_paths : option string)
  : outcome (option (dict string) * option string) :=
  match input_paths with
  | Some s =>
      if str_truthy s then
        (split_vars <- split_input_paths max_size s ;;
         Return (Some split_vars, Some (reconstruction split_vars)))%outcome
      else Return (None, input_paths)
  | None => Return (None, None)
  end.

(** The chunks an encoding produced: none when [split_vars] is [None]. *)
Definition chunks_of (split_vars : option (dict string)) : dict string :=
  match split_vars with
  | Some d => d
  | None => []
  end.

(** [ceil(n / c)], the number of chunks the properties speak of. *)
Definition ceil_div (n c : nat) : nat := (n + c - 1) / c.

(** ** Decorators of a step (lines 197-203 and 220-228) *)

(** The attribute values the operation reads from decorators. *)
Inductive pyval : Type :=
| PyNone
| PyInt (z : Z)
| PyStr (s : string)
| PyDict (d : dict string).

Record decorator : Type := {
  name : string;
  attributes : dict pyval
}.

Definition decorators_named (n : string) (decorators : list decorator)
  : list decorator :=
  filter (fun deco => String.eqb (name deco) n) decorators.

(** Truth value of [split_vars]: [None] and the empty dict are false. *)
Definition split_vars_truthy (split_vars : option (dict string)) : bool :=
  match split_vars with
  | Some (_ :: _) => true
  | _ => false
  end.

(** Lines 220-224: the mapping of the first [environment] decorator, or a
    new empty dict. *)
Definition declared_env (decorators : list decorator) : outcome pyval :=
  match decorators_named "environment" decorators with
  | deco :: _ =>
      match dict_get (attributes deco) "vars" with
      | Some v => Return v
      | None => Raise (KeyError "vars")
      end
  | [] => Return (PyDict [])
  end.

(** [env.update(split_vars)]: only a dict has the method. *)
Definition env_update (env : pyval) (split_vars : dict string) : outcome pyval :=
  match env with
  | PyDict d => Return (PyDict (dict_update d split_vars))
  | _ => Raise (AttributeError "object has no attribute 'update'")
  end.

(** Lines 226-228 *)
Definition merge_env (env : pyval) (split_vars : option (dict string))
  : outcome pyval :=
  if split_vars_truthy split_vars then env_update env (chunks_of split_vars)
  else Return env.

(** ** Events and actions

    What the operation does to the outside world, in order: the calls it
    makes to its collaborators and to the standard library. *)

Record launch_request : Type := {
  job_flow_name : string;
  job_run_id : string;
  job_step_name : string;
  job_task_id : string;
  job_step_cli : string;
  job_attempt : string;
  job_code_package_sha : string;
  job_code_package_url : string;
  job_code_package_ds : string;
  job_image : option string;
  job_queue : option string;
  job_iam_role : option string;
  job_execution_role : option string;
  job_cpu : option string;
  job_gpu : option string;
  job_memory : option string;
  job_run_time_limit : Z;
  job_shared_memory : option string;
  job_max_swap : option string;
  job_swappiness : option string;
  job_env : pyval;
  job_attrs : dict string
}.

(** The task datastore that [FlowDataStore(...).get_task_datastore(run_id,
    step_name, task_id)] designates. *)
Record task_datastore : Type := {
  ds_flow_name : string;
  ds_run_id : string;
  ds_step_name : string;
  ds_task_id : string
}.

Inductive event : Type :=
| EchoAlways (msg : string) (err : bool)
| Sleep (seconds : Z)
| LaunchJob (req : launch_request)
| PrintException (e : exn)
| PrintTraceback (e : exn)
| Wait (stdout_location stderr_location : string)
| SyncLocalMetadata (ds : task_datastore).

(** An action yields the events it caused and then returns or raises. *)
Definition action (A : Type) : Type := (list event * outcome A)%type.

Definition ret {A} (a : A) : action A := ([], Return a).
Definition raise {A} (e : exn) : action A := ([], Raise e).
Definition emit (ev : event) : action unit := ([ev], Return tt).
Definition lift {A} (o : outcome A) : action A := ([], o).

Definition bind {A B} (m : action A) (k : A -> action B) : action B :=
  match m with
  | (t, Return a) => let '(t', r) := k a in ((t ++ t')%list, r)
  | (t, Raise e) => (t, Raise e)
  end.

Declare Scope action_scope.
Delimit Scope action_scope with action.
Notation "x <- m ;; k" := (bind m (fun x => k))
  (at level 100, m at next level, right associativity) : action_scope.
Notation "m ;; k" := (bind m (fun _ => k))
  (at level 100, right associativity) : action_scope.

(** [try: body except C as e: handler(e)], [C] given by [catches]. *)
Definition try_except {A} (body : action A) (catches : exn -> bool)
    (handler : exn -> action A) : action A :=
  match body with
  | (t, Raise e) =>
      if catches e then let '(t', r) := handler e in ((t ++ t')%list, r)
      else (t, Raise e)
  | (t, Return a) => (t, Return a)
  end.

(** [try: body finally: final]: [final] always runs; what it raises
    replaces the result of [body]. *)
Definition try_finally {A} (body : action A) (final : action unit) : action A :=
  let '(t, r) := body in
  let '(t', r') := final in
  ((t ++ t')%list,
   match r' with
   | Raise e => Raise e
   | Return _ => r
   end).

(** [sys.exit(code)] *)
Definition sys_exit {A} (code : Z) : action A := raise (SystemExit code).

(** ["Sleeping %d minutes before the next AWS Batch retry" % minutes] *)
Definition sleeping_notice (minutes : option Z) : outcome string :=
  match minutes with
  | Some m =>
      Return ("Sleeping " ++ string_of_Z m
              ++ " minutes before the next AWS Batch retry")
  | None => Raise (TypeError "%d format: a real number is required, not NoneType")
  end.

(** [minutes * 60] *)
Definition times_60 (minutes : option Z) : outcome Z :=
  match minutes with
  | Some m => Return (m * 60)%Z
  | None =>
      Raise (TypeError "unsupported operand type(s) for *: 'NoneType' and 'int'")
  end.

(** ** The command's inputs and collaborators *)

Record step_options : Type := {
  executable : option string;
  image : option string;
  iam_role : option string;
  execution_role : option string;
  cpu : option string;
  gpu : option string;
  memory : option string;
  queue : option string;
  run_time_limit : Z;
  shared_memory : option string;
  max_swap : option string;
  swappiness : option string
}.

(** [**kwargs]: the options passed on to the top-level [step]. *)
Record step_kwargs : Type := {
  run_id : string;
  task_id : string;
  input_paths : option string;
  retry_count : Z;
  passed_on : dict string
}.

Definition set_input_paths (kwargs : step_kwargs) (v : option string)
  : step_kwargs :=
  {| run_id := run_id kwargs;
     task_id := task_id kwargs;
     input_paths := v;
     retry_count := retry_count kwargs;
     passed_on := passed_on kwargs |}.

Record common_task_attrs : Type := {
  attr_flow_name : string;
  attr_run_id : string;
  attr_step_name : string;
  attr_task_id : string;
  attr_attempt : Z;
  attr_user : string;
  attr_version : string
}.

(** The [stream] argument of [echo]: a name, or the [sys.stderr] object. *)
Inductive stream_value : Type :=
| StreamName (s : string)
| SysStderr.

(** One call of the [echo] callback by [Batch.wait]; an argument left out is
    [None]. *)
Record echo_call : Type := {
  echo_msg : string;
  echo_stream : option stream_value;
  echo_batch_id : option string
}.

(** [ctx.obj], the modules the command imports, and the results of the calls
    it makes to them. [graph] gives the decorators of a step's node;
    [top_level_options] is [util.dict_to_cli_options] of the top-level
    parameters; [to_dict] is [CommonTaskAttrs.to_dict]; [get_log_location]
    takes the arguments of [get_task_datastore] and of the method. The last
    three fields before the last are the collaborators that act on the
    outside world: [Batch.launch_job] returns or raises, [Batch.wait] calls
    [echo] for the lines it relays and then returns or raises (what a
    failing callback raises included), and the metadata sync returns or
    raises. The context manager [monitor.measure] around the submission
    lets results through. [os_sleep] is what the operating system does
    when [time.sleep] asks it for a pause of that many seconds. *)
Record context : Type := {
  flow_name : string;
  graph : string -> list decorator;
  environment_executable : string -> string;
  metaflow_version : string;
  datastore_type : string;
  top_level_options : list string;
  argv0_basename : string;
  use_r : bool;
  r_entrypoint : string;
  get_username : string;
  dict_to_cli_options : step_kwargs -> list string;
  to_dict : common_task_attrs -> string -> dict string;
  get_log_location : string -> string -> string -> Z -> string -> string -> string;
  launch_job : launch_request -> outcome unit;
  wait : string -> string -> list echo_call * outcome unit;
  sync_local_metadata_from_datastore : task_datastore -> outcome unit;
  os_sleep : Z -> outcome unit
}.

(** CPython keeps a timeout as a signed 64-bit count of nanoseconds: an
    [int] of more than [(2^63 - 1) / 10^9] seconds, of either sign, does not
    convert. *)
Definition PyTime_max_seconds : Z := 9223372036.

(** [time.sleep(seconds)] for an [int]: the conversion of the argument
    comes first and raises [OverflowError]; a negative argument is then a
    [ValueError]; otherwise the operating system is asked to suspend the
    process, which it does ([os_sleep] returns, [Sleep] records the pause)
    or refuses (a duration past the end of its clock is an [OSError]). *)
Definition time_sleep (ctx : context) (seconds : Z) : action unit :=
  if (PyTime_max_seconds <? Z.abs seconds)%Z
  then raise (OverflowError "timestamp too large to convert to C _PyTime_t")
  else if (seconds <? 0)%Z
  then raise (ValueError "sleep length must be non-negative")
  else
    match os_sleep ctx seconds with
    | Return _ => emit (Sleep seconds)
    | Raise e => raise e
    end.

(** ** Listing and terminating jobs (lines 43-93) *)

(** [metaflow.exception.CommandException], an [Exception] subclass. *)
Definition CommandException (msg : string) : exn :=
  OtherError "CommandException" msg.

(** Truth value of an option that holds a [str] or [None]. *)
Definition opt_truthy (o : option string) : bool :=
  match o with
  | Some s => str_truthy s
  | None => false
  end.

(** The arguments of [func(flow_name, run_id, user, echo)]; [echo] is
    handed on as it was received. *)
Record jobs_query : Type := {
  query_flow_name : string;
  query_run_id : option string;
  query_user : option string
}.

(** Lines 43-63. [get_username] is the result of [util.get_username()] and
    [get_latest_run_id] that of [util.get_latest_run_id(echo, flow_name)]:
    the contents of the flow's [latest_run] file, [None] when there is
    none. *)
Definition _execute_cmd
    (get_username : option string)
    (get_latest_run_id : string -> outcome (option string))
    (func : jobs_query -> outcome unit)
    (flow_name : string) (run_id user : option string) (my_runs : bool)
  : outcome unit :=
  if opt_truthy user && my_runs then
    Raise (CommandException "--user and --my-runs are mutually exclusive.")
  else if opt_truthy run_id && my_runs then
    Raise (CommandException "--run_id and --my-runs are mutually exclusive.")
  else
    let user := if my_runs then get_username else user in
    let latest_run := negb (opt_truthy user && negb (opt_truthy run_id)) in
    (run_id <-
       (if negb (opt_truthy run_id) && latest_run then
          (latest <- get_latest_run_id flow_name ;;
           match latest with
           | None =>
               Raise (CommandException
                        "A previous run id was not found. Specify --run-id.")
           | Some r => Return (Some r)
           end)
        else Return run_id) ;;
     func {| query_flow_name := flow_name;
             query_run_id := run_id;
             query_user := user |})%outcome.

(** The two methods of [Batch] that the commands hand to [_execute_cmd]. *)
Record batch_client : Type := {
  list_jobs : jobs_query -> outcome unit;
  kill_jobs : jobs_query -> outcome unit
}.

(** The commands [batch list] (lines 74-78) and [batch kill] (lines
    89-93); [flow_name] is [ctx.obj.flow.name]. *)
Module batch.

Definition kill
    (get_username : option string)
    (get_latest_run_id : string -> outcome (option string))
    (client : batch_client) (flow_name : string)
    (run_id user : option string) (my_runs : bool) : outcome unit :=
  _execute_cmd get_username get_latest_run_id (kill_jobs client)
    flow_name run_id user my_runs.

Definition list
    (get_username : option string)
    (get_latest_run_id : string -> outcome (option string))
    (client : batch_client) (flow_name : string)
    (run_id user : option string) (my_runs : bool) : outcome unit :=
  _execute_cmd get_username get_latest_run_id (list_jobs client)
    flow_name run_id user my_runs.

End batch.

(** ** Sample inputs *)

Definition example_options : step_options :=
  {| executable := None;
     image := Some "python:3.9";
     iam_role := Some "arn:aws:iam::1:role/batch";
     execution_role := None;
     cpu := Some "1";
     gpu := None;
     memory := Some "4096";
     queue := Some "jobs";
     run_time_limit := 432000;
     shared_memory := None;
     max_swap := None;
     swappiness := None |}.

Definition example_kwargs (n : Z) (paths : option string) : step_kwargs :=
  {| run_id := "17";
     task_id := "3";
     input_paths := paths;
     retry_count := n;
     passed_on := [("namespace", "user:alice")] |}.

Definition retry_decorator (minutes : pyval) : decorator :=
  {| name := "retry";
     attributes := [("times", PyStr "3"); ("minutes_between_retries", minutes)] |}.

Definition catch_decorator : decorator :=
  {| name := "catch"; attributes := [("var", PyStr "failure")] |}.

Definition environment_decorator (vars : dict string) : decorator :=
  {| name := "environment"; attributes := [("vars", PyDict vars)] |}.

Definition example_log : list echo_call :=
  [ {| echo_msg := "Task is starting.";
       echo_stream := None;
       echo_batch_id := Some "job-42" |};
    {| echo_msg := "hello";
       echo_stream := Some (StreamName "stderr");
       echo_batch_id := Some "job-42" |} ].

(** A flow [HelloFlow] whose step carries [decorators], with the given
    results of the submission, the wait and the metadata sync. *)
Definition example_context (decorators : list decorator)
    (launched : outcome unit) (waited : outcome unit) (synced : outcome unit)
  : context :=
  {| flow_name := "HelloFlow";
     graph := fun _ => decorators;
     environment_executable := fun _ => "python";
     metaflow_version := "2.4.0";
     datastore_type := "s3";
     top_level_options := ["--quiet"; "--datastore"; "s3"];
     argv0_basename := "hello.py";
     use_r := false;
     r_entrypoint := "Rscript run.R";
     get_username := "alice";
     dict_to_cli_options := fun kw =>
       (["--run-id"; run_id kw; "--task-id"; task_id kw]
        ++ match input_paths kw with
           | Some v => ["--input-paths"; v]
           | None => []
           end
        ++ ["--retry-count"; string_of_Z (retry_count kw)])%list;
     to_dict := fun a prefix =>
       [(prefix ++ "flow_name", attr_flow_name a);
        (prefix ++ "run_id", attr_run_id a);
        (prefix ++ "step_name", attr_step_name a);
        (prefix ++ "task_id", attr_task_id a);
        (prefix ++ "retry_count", string_of_Z (attr_attempt a));
        (prefix ++ "user", attr_user a);
        (prefix ++ "version", attr_version a)];
     get_log_location := fun run step task attempt source stream =>
       "s3://logs/" ++ run ++ "/" ++ step ++ "/" ++ task ++ "/"
       ++ string_of_Z attempt ++ "_" ++ source ++ "_" ++ stream ++ ".log";
     launch_job := fun _ => launched;
     wait := fun _ _ => (example_log, waited);
     sync_local_metadata_from_datastore := fun _ => synced;
     os_sleep := fun _ => Return tt |}.

Fixpoint repeat_char (n : nat) (c : ascii) : string :=
  match n with
  | 0 => EmptyString
  | S n' => String c (repeat_char n' c)
  end.

(** An input-paths value of 45000 characters. *)
Definition example_long_paths : string := repeat_char (45 * 1000) "a".

(** An [environment] decorator without its ["vars"], and one whose
    ["vars"] is [None]. *)
Definition bare_environment_decorator : decorator :=
  {| name := "environment"; attributes := [] |}.

Definition null_environment_decorator : decorator :=
  {| name := "environment"; attributes := [("vars", PyNone)] |}.

(** An input-paths value of 22500 times the letter e with an acute accent
    (code point 233): 22500 characters, 45000 bytes. *)
Definition example_accented_paths : string :=
  repeat_char (225 * 100) "233"%char.

(** An input-paths value that fills two chunks exactly. *)
Definition example_full_paths : string := repeat_char (2 * max_size) "b".

(** A machine whose user is [alice] and whose latest run of any flow is
    run 1685, and a backend that accepts every query. *)
Definition example_latest_run_id (flow_name : string)
  : outcome (option string) :=
  Return (Some "1685").

Definition example_client : batch_client :=
  {| list_jobs := fun _ => Return tt;
     kill_jobs := fun _ => Return tt |}.

(** Python's [int] on the strings the samples use. *)
Definition example_int_of_str (s : string) : option Z :=
  match NilZero.int_of_string s with
  | Some d => Some (Z.of_int d)
  | None => None
  end.

(** ** The [step] command (lines 145-295) *)

Section Step.

(** [metaflow.exception.METAFLOW_EXIT_DISALLOW_RETRY] and
    [metaflow.mflog.TASK_LOG_SOURCE], Python's [int] on a [str], and
    [util.to_unicode]: imported by the module, defined elsewhere. *)
Variable METAFLOW_EXIT_DISALLOW_RETRY : Z.
Variable TASK_LOG_SOURCE : string.
Variable int_of_str : string -> option Z.
Variable to_unicode : string -> string.

(** [int(v)] *)
Definition py_int (v : pyval) : outcome Z :=
  match v with
  | PyInt z => Return z
  | PyStr s =>
      match int_of_str s with
      | Some z => Return z
      | None => Raise (ValueError "invalid literal for int() with base 10")
      end
  | PyNone | PyDict _ =>
      Raise (TypeError "int() argument must be a string or a real number")
  end.

(** Lines 198-203: [None] without a [retry] decorator, else the
    decorator's [minutes_between_retries], 1 when it has none. *)
Definition minutes_between_retries (decorators : list decorator)
  : outcome (option Z) :=
  match decorators_named "retry" decorators with
  | deco :: _ =>
      (m <- py_int (dict_get_default (attributes deco)
                      "minutes_between_retries" (PyInt 1)) ;;
       Return (Some m))%outcome
  | [] => Return None
  end.

(** Lines 230-234 *)
Definition retry_backoff (ctx : context) (n : Z) (minutes : option Z)
  : action unit :=
  if (n =? 0)%Z then ret tt
  else
    (msg <- lift (sleeping_notice minutes) ;;
     emit (EchoAlways msg false) ;;
     seconds <- lift (times_60 minutes) ;;
     time_sleep ctx seconds)%action.

(** Lines 164-168: the callback handed to [Batch.wait]. *)
Definition echo (c : echo_call) : action unit :=
  let msg := to_unicode (echo_msg c) in
  let msg :=
    match echo_batch_id c with
    | Some b => if str_truthy b then "[" ++ b ++ "] " ++ msg else msg
    | None => msg
    end in
  let stream :=
    match echo_stream c with
    | Some s => s
    | None => StreamName "stderr"
    end in
  emit (EchoAlways msg match stream with
                       | SysStderr => true
                       | StreamName _ => false
                       end).

Fixpoint for_each {A} (f : A -> action unit) (l : list A) : action unit :=
  match l with
  | [] => ret tt
  | x :: l' => (f x ;; for_each f l')%action
  end.

(** [batch.wait(stdout_location, stderr_location, echo=echo)]: the backend
    relays log lines through [echo], then returns or raises. *)
Definition batch_wait (ctx : context) (stdout_location stderr_location : string)
  : action unit :=
  let '(calls, r) := wait ctx stdout_location stderr_location in
  (emit (Wait stdout_location stderr_location) ;;
   for_each echo calls ;;
   lift r)%action.

(** [batch.launch_job(...)] *)
Definition batch_launch_job (ctx : context) (req : launch_request)
  : action unit :=
  (emit (LaunchJob req) ;; lift (launch_job ctx req))%action.

(** [FlowDataStore(...).get_task_datastore(run_id, step_name, task_id)]:
    building the two objects reads nothing and is taken to succeed. *)
Definition get_task_datastore (ctx : context) (step_name : string)
    (kwargs : step_kwargs) : task_datastore :=
  {| ds_flow_name := flow_name ctx;
     ds_run_id := run_id kwargs;
     ds_step_name := step_name;
     ds_task_id := task_id kwargs |}.

(** Lines 276-280 and 290-295: build the task datastore and sync. *)
Definition sync_metadata (ctx : context) (step_name : string)
    (kwargs : step_kwargs) : action unit :=
  let task_datastore := get_task_datastore ctx step_name kwargs in
  (emit (SyncLocalMetadata task_datastore) ;;
   lift (sync_local_metadata_from_datastore ctx task_datastore))%action.

(** What lines 164-245 hand to the submission. *)
Record prepared : Type := {
  final_kwargs : step_kwargs;
  request : launch_request;
  stdout_location : string;
  stderr_location : string
}.

(** Lines 170-245: everything before the submission. *)
Definition prepare (ctx : context)
    (step_name code_package_sha code_package_url : string)
    (opts : step_options) (kwargs0 : step_kwargs) : action prepared :=
  let entrypoint :=
    if use_r ctx then r_entrypoint ctx
    else
      (match executable opts with
       | Some e => e
       | None => environment_executable ctx step_name
       end) ++ " -u " ++ argv0_basename ctx in
  let top_args := py_join " " (top_level_options ctx) in
  (enc <- lift (encode_input_paths (input_paths kwargs0)) ;;
   let split_vars := fst enc in
   let kwargs := set_input_paths kwargs0 (snd enc) in
   let step_args := py_join " " (dict_to_cli_options ctx kwargs) in
   let step_cli :=
     entrypoint ++ " " ++ top_args ++ " step " ++ step_name ++ " " ++ step_args in
   let decorators := graph ctx step_name in
   let n := retry_count kwargs in
   minutes <- lift (minutes_between_retries decorators) ;;
   let common_attrs :=
     {| attr_flow_name := flow_name ctx;
        attr_run_id := run_id kwargs;
        attr_step_name := step_name;
        attr_task_id := task_id kwargs;
        attr_attempt := n;
        attr_user := get_username ctx;
        attr_version := metaflow_version ctx |} in
   let attrs := to_dict ctx common_attrs "metaflow." in
   env <- lift (declared_env decorators) ;;
   env <- lift (merge_env env split_vars) ;;
   retry_backoff ctx n minutes ;;
   let log_location :=
     get_log_location ctx (run_id kwargs) step_name (task_id kwargs) n
       TASK_LOG_SOURCE in
   ret {| final_kwargs := kwargs;
          request :=
            {| job_flow_name := flow_name ctx;
               job_run_id := run_id kwargs;
               job_step_name := step_name;
               job_task_id := task_id kwargs;
               job_step_cli := step_cli;
               job_attempt := string_of_Z n;
               job_code_package_sha := code_package_sha;
               job_code_package_url := code_package_url;
               job_code_package_ds := datastore_type ctx;
               job_image := image opts;
               job_queue := queue opts;
               job_iam_role := iam_role opts;
               job_execution_role := execution_role opts;
               job_cpu := cpu opts;
               job_gpu := gpu opts;
               job_memory := memory opts;
               job_run_time_limit := run_time_limit opts;
               job_shared_memory := shared_memory opts;
               job_max_swap := max_swap opts;
               job_swappiness := swappiness opts;
               job_env := env;
               job_attrs := attrs |};
          stdout_location := log_location "stdout";
          stderr_location := log_location "stderr" |})%action.

(** Lines 247-295: submission, monitoring and the metadata sync. *)
Definition submit_and_monitor (ctx : context) (step_name : string)
    (p : prepared) : action unit :=
  let kwargs := final_kwargs p in
  (try_except (batch_launch_job ctx (request p)) is_Exception
     (fun e =>
        emit (PrintException e) ;;
        sync_metadata ctx step_name kwargs ;;
        sys_exit METAFLOW_EXIT_DISALLOW_RETRY) ;;
   try_finally
     (try_except
        (batch_wait ctx (stdout_location p) (stderr_location p))
        is_BatchKilledException
        (fun e =>
           emit (PrintTraceback e) ;;
           sys_exit METAFLOW_EXIT_DISALLOW_RETRY))
     (sync_metadata ctx step_name kwargs))%action.

Definition step (ctx : context)
    (step_name code_package_sha code_package_url : string)
    (opts : step_options) (kwargs : step_kwargs) : action unit :=
  (p <- prepare ctx step_name code_package_sha code_package_url opts kwargs ;;
   submit_and_monitor ctx step_name p)%action.

(** ** What a run did *)

Definition events {A} (a : action A) : list event := fst a.
Definition result {A} (a : action A) : outcome A := snd a.

Definition is_sync (ev : event) : bool :=
  match ev with SyncLocalMetadata _ => true | _ => false end.
Definition is_launch (ev : event) : bool :=
  match ev with LaunchJob _ => true | _ => false end.
Definition is_traceback (ev : event) : bool :=
  match ev with PrintTraceback _ => true | _ => false end.

Definition is_wait (ev : event) : bool :=
  match ev with Wait _ _ => true | _ => false end.

(** Messages and pauses: the events that call no collaborator. *)
Definition is_output (ev : event) : bool :=
  match ev with EchoAlways _ _ | Sleep _ => true | _ => false end.

Definition count (p : event -> bool) (t : list event) : nat :=
  List.length (filter p t).

(** The ways a run that reached the submission ends: the backend refused
    the job, or it took it and the wait returned, reported a kill, or
    raised anything else. *)
Inductive exit_path (ctx : context) (p : prepared) : Prop :=
| SubmissionFailure (e : exn) :
    launch_job ctx (request p) = Raise e ->
    is_Exception e = true ->
    exit_path ctx p
| Success :
    launch_job ctx (request p) = Return tt ->
    snd (wait ctx (stdout_location p) (stderr_location p)) = Return tt ->
    exit_path ctx p
| Killed (msg : string) :
    launch_job ctx (request p) = Return tt ->
    snd (wait ctx (stdout_location p) (stderr_location p))
    = Raise (BatchKilledException msg) ->
    exit_path ctx p
| OtherFailure (e : exn) :
    launch_job ctx (request p) = Return tt ->
    snd (wait ctx (stdout_location p) (stderr_location p)) = Raise e ->
    is_BatchKilledException e = false ->
    exit_path ctx p.

(** * Properties *)

(** ** Strings as lists of characters *)

Lemma length_list_ascii_of_string (s : string) :
  List.length (list_ascii_of_string s) = String.length s.
Proof. induction s as [|a s IH]; simpl; congruence. Qed.

Lemma list_ascii_of_string_app (s1 s2 : string) :
  list_ascii_of_string (s1 ++ s2)
  = (list_ascii_of_string s1 ++ list_ascii_of_string s2)%list.
Proof. induction s1 as [|a s1 IH]; simpl; congruence. Qed.

Lemma list_ascii_of_string_inj (s1 s2 : string) :
  list_ascii_of_string s1 = list_ascii_of_string s2 -> s1 = s2.
Proof.
  intro H.
  rewrite <- (string_of_list_ascii_of_string s1), H.
  apply string_of_list_ascii_of_string.
Qed.

Lemma substring_firstn_skipn (s : string) :
  forall n m,
    list_ascii_of_string (String.substring n m s)
    = firstn m (skipn n (list_ascii_of_string s)).
Proof.
  induction s as [|a s IH]; intros [|n] [|m]; simpl; try reflexivity.
  - rewrite (IH 0 m). reflexivity.
  - apply IH.
  - apply IH.
Qed.

Lemma string_append_nil_r (s : string) : s ++ "" = s.
Proof. induction s as [|a s IH]; simpl; congruence. Qed.

Lemma concat_cons (x : string) (ls : list string) :
  String.concat "" (x :: ls) = x ++ String.concat "" ls.
Proof.
  destruct ls as [|y ls]; simpl.
  - symmetry. apply string_append_nil_r.
  - reflexivity.
Qed.

Lemma concat_list_ascii (ls : list string) :
  list_ascii_of_string (String.concat "" ls)
  = List.concat (map list_ascii_of_string ls).
Proof.
  induction ls as [|x ls IH].
  - reflexivity.
  - rewrite concat_cons, list_ascii_of_string_app, IH. reflexivity.
Qed.

Lemma firstn_add {A} (a b : nat) :
  forall l : list A, firstn (a + b) l = (firstn a l ++ firstn b (skipn a l))%list.
Proof.
  induction a as [|a IH]; intros [|x l]; simpl; try reflexivity.
  - now rewrite firstn_nil.
  - now rewrite IH.
Qed.

(** Cutting a list into [m] slices of width [c] and gluing them back gives
    its first [m * c] elements. *)
Lemma concat_slices {A} (c : nat) (l : list A) :
  forall m,
    List.concat (map (fun k => firstn c (skipn (k * c) l)) (seq 0 m))
    = firstn (m * c) l.
Proof.
  induction m as [|m IH].
  - reflexivity.
  - rewrite seq_S, map_app, concat_app, IH. simpl.
    rewrite List.app_nil_r, (Nat.add_comm c (m * c)). symmetry. apply firstn_add.
Qed.

(** ** Ranges *)

Lemma ceil_div_0 (c : nat) : 0 < c -> ceil_div 0 c = 0.
Proof. intro Hc. unfold ceil_div. apply Nat.div_small. lia. Qed.

Lemma ceil_div_step (a c : nat) :
  0 < c -> 0 < a -> ceil_div a c = S (ceil_div (a - c) c).
Proof.
  intros Hc Ha. unfold ceil_div.
  destruct (Nat.le_gt_cases c a) as [Hle|Hlt].
  - replace (a + c - 1) with ((a - c + c - 1) + 1 * c) by lia.
    rewrite Nat.div_add by lia. lia.
  - replace (a - c) with 0 by lia.
    rewrite (Nat.div_small (0 + c - 1) c) by lia.
    symmetry. apply (Nat.div_unique _ _ _ (a - 1)); lia.
Qed.

(** The multiples of [c] a chunk count [m] stays within the length [n]. *)
Lemma ceil_div_bounds (n c : nat) :
  0 < c -> 0 < n ->
  n <= ceil_div n c * c /\ (ceil_div n c - 1) * c < n /\ 0 < ceil_div n c.
Proof.
  intros Hc Hn. unfold ceil_div.
  pose proof (Nat.div_mod_eq (n + c - 1) c) as E.
  pose proof (Nat.mod_upper_bound (n + c - 1) c) as B.
  set (q := (n + c - 1) / c) in *. set (r := (n + c - 1) mod c) in *.
  assert (0 < q) by (destruct q; [simpl in E|]; lia).
  nia.
Qed.

Lemma range_from_spec (c : nat) :
  0 < c ->
  forall fuel i n,
    n - i <= fuel ->
    range_from fuel i n c
    = map (fun k => i + k * c) (seq 0 (ceil_div (n - i) c)).
Proof.
  intro Hc. induction fuel as [|fuel IH]; intros i n Hf.
  - replace (n - i) with 0 by lia. now rewrite ceil_div_0.
  - simpl. destruct (Nat.ltb_spec i n) as [Hlt|Hge].
    + rewrite (ceil_div_step (a := n - i) Hc) by lia.
      rewrite IH by lia.
      replace (n - i - c) with (n - (i + c)) by lia.
      simpl. rewrite Nat.add_0_r. f_equal.
      rewrite <- seq_shift, map_map. apply map_ext. intro k. lia.
    + replace (n - i) with 0 by lia. now rewrite ceil_div_0.
Qed.

Lemma py_range_from_zero (n c : nat) :
  0 < c ->
  py_range 0 n c = Return (map (fun k => k * c) (seq 0 (ceil_div n c))).
Proof.
  intro Hc. unfold py_range.
  destruct (Nat.eqb_spec c 0) as [->|_]; [lia|].
  rewrite range_from_spec by lia. now rewrite Nat.sub_0_r.
Qed.

(** ** Dictionaries *)

Lemma dict_set_fresh {V} (d : dict V) (k : string) (v : V) :
  ~ In k (dict_keys d) -> dict_set d k v = (d ++ [(k, v)])%list.
Proof.
  induction d as [|[k' v'] d IH]; simpl; intro Hk.
  - reflexivity.
  - destruct (String.eqb_spec k' k) as [->|_].
    + exfalso. apply Hk. now left.
    + f_equal. apply IH. intro H. apply Hk. now right.
Qed.

(** Filling a dict under pairwise distinct new keys appends the entries in
    the order they are produced. *)
Lemma fold_dict_set_fresh {A V} (key : A -> string) (val : A -> V) :
  forall (l : list A) (d : dict V),
    NoDup (map key l) ->
    (forall x, In x l -> ~ In (key x) (dict_keys d)) ->
    fold_left (fun d i => dict_set d (key i) (val i)) l d
    = (d ++ map (fun i => (key i, val i)) l)%list.
Proof.
  induction l as [|x l IH]; intros d Hnd Hfresh; simpl.
  - now rewrite List.app_nil_r.
  - inversion Hnd as [|? ? Hx Hl]; subst.
    rewrite dict_set_fresh by (apply Hfresh; now left).
    rewrite IH; auto.
    + now rewrite <- app_assoc.
    + intros y Hy. unfold dict_keys. rewrite map_app, in_app_iff.
      intros [H|[H|[]]].
      * revert H. apply Hfresh. now right.
      * simpl in H. apply Hx. rewrite H. now apply in_map.
Qed.

Lemma dict_get_set {V} (d : dict V) (k k' : string) (v : V) :
  dict_get (dict_set d k v) k'
  = if String.eqb k k' then Some v else dict_get d k'.
Proof.
  induction d as [|[k0 v0] d IH]; simpl.
  - reflexivity.
  - destruct (String.eqb_spec k0 k) as [->|Hne]; simpl.
    + destruct (String.eqb_spec k k'); reflexivity.
    + rewrite IH. destruct (String.eqb_spec k0 k') as [->|_]; [|reflexivity].
      destruct (String.eqb_spec k k'); congruence.
Qed.

Lemma dict_keys_set {V} (d : dict V) (k k' : string) (v : V) :
  In k' (dict_keys d) -> In k' (dict_keys (dict_set d k v)).
Proof.
  induction d as [|[k0 v0] d IH]; simpl; [auto|].
  destruct (String.eqb_spec k0 k); simpl; intros [H|H]; auto.
Qed.

Lemma dict_keys_update {V} (other d : dict V) (k : string) :
  In k (dict_keys d) -> In k (dict_keys (dict_update d other)).
Proof.
  unfold dict_update. revert d.
  induction other as [|[k0 v0] other IH]; intros d Hk; simpl; [assumption|].
  apply IH. now apply dict_keys_set.
Qed.

Lemma dict_get_not_in {V} (d : dict V) (k : string) :
  ~ In k (dict_keys d) -> dict_get d k = None.
Proof.
  induction d as [|[k0 v0] d IH]; simpl; intro H; [reflexivity|].
  destruct (String.eqb_spec k0 k) as [E|_].
  - exfalso. apply H. now left.
  - apply IH. intro Hin. apply H. now right.
Qed.

(** After [d.update(other)] a key has the value [other] gives it, and its
    value in [d] when [other] does not have it. *)
Lemma dict_get_update {V} (other d : dict V) (k : string) :
  NoDup (dict_keys other) ->
  dict_get (dict_update d other) k
  = match dict_get other k with
    | Some v => Some v
    | None => dict_get d k
    end.
Proof.
  unfold dict_update. revert d.
  induction other as [|[k0 v0] other IH]; intros d Hnd; simpl; [reflexivity|].
  inversion Hnd as [|? ? Hk0 Hother]; subst.
  rewrite IH by assumption.
  destruct (String.eqb_spec k0 k) as [->|Hne].
  - rewrite dict_get_not_in by assumption.
    rewrite dict_get_set, String.eqb_refl. reflexivity.
  - rewrite dict_get_set.
    destruct (String.eqb_spec k0 k); [contradiction|reflexivity].
Qed.

(** ** Keys of the chunks *)

Lemma string_of_nat_inj (a b : nat) :
  string_of_nat a = string_of_nat b -> a = b.
Proof.
  unfold string_of_nat. intro H.
  assert (Hnn : forall n, Nat.to_uint n <> Decimal.Nil).
  { intro n. rewrite <- (Unsigned.of_to n) at 1. rewrite Unsigned.to_of.
    apply DecimalFacts.unorm_nonnil. }
  apply Unsigned.to_uint_inj.
  assert (E : Some (Nat.to_uint a) = Some (Nat.to_uint b)).
  { rewrite <- (NilZero.usu _ (Hnn a)), <- (NilZero.usu _ (Hnn b)). now rewrite H. }
  now inversion E.
Qed.

Lemma input_paths_key_inj : Injective input_paths_key.
Proof.
  intros a b H. unfold input_paths_key in H. simpl in H.
  apply string_of_nat_inj. congruence.
Qed.

(** ** The chunks of the encoder *)

(** The comprehension yields one entry per multiple of [c] below the length,
    numbered from 0, holding the slice that starts there. *)
Lemma split_input_paths_chunks (c : nat) (s : string) :
  0 < c ->
  split_input_paths c s
  = Return (map (fun k => (input_paths_key k, String.substring (k * c) c s))
              (seq 0 (ceil_div (String.length s) c))).
Proof.
  intro Hc. unfold split_input_paths.
  rewrite py_range_from_zero by assumption. simpl obind. f_equal.
  rewrite (fold_dict_set_fresh
             (fun i => input_paths_key (i / c))
             (fun i => py_slice s i (i + c))).
  - simpl. rewrite map_map. apply map_ext. intro k.
    rewrite Nat.div_mul by lia. unfold py_slice.
    now replace (k * c + c - k * c) with c by lia.
  - rewrite map_map.
    rewrite (map_ext (fun k => input_paths_key (k * c / c)) input_paths_key).
    + apply Injective_map_NoDup; [exact input_paths_key_inj | apply seq_NoDup].
    + intro k. now rewrite Nat.div_mul by lia.
  - intros x _ [].
Qed.

Lemma chunks_concat (c : nat) (s : string) :
  0 < c ->
  py_join ""
    (map (fun k => String.substring (k * c) c s)
       (seq 0 (ceil_div (String.length s) c))) = s.
Proof.
  intro Hc. unfold py_join. apply list_ascii_of_string_inj.
  rewrite concat_list_ascii, map_map.
  rewrite (map_ext _ (fun k => firstn c (skipn (k * c) (list_ascii_of_string s))))
    by (intro k; apply substring_firstn_skipn).
  rewrite concat_slices. apply firstn_all2.
  rewrite length_list_ascii_of_string.
  destruct (String.length s) as [|n] eqn:E.
  - lia.
  - apply (ceil_div_bounds (n := S n) Hc). lia.
Qed.

Lemma chunk_length (c : nat) (s : string) (k : nat) :
  String.length (String.substring (k * c) c s)
  = Nat.min c (String.length s - k * c).
Proof.
  rewrite <- !length_list_ascii_of_string, substring_firstn_skipn.
  now rewrite length_firstn, length_skipn.
Qed.

Lemma reconstruction_two (a b : string) :
  reconstruction [(input_paths_key 0, a); (input_paths_key 1, b)]
  = "${METAFLOW_INPUT_PATHS_0}${METAFLOW_INPUT_PATHS_1}".
Proof. reflexivity. Qed.

Lemma max_size_pos : 0 < max_size.
Proof. unfold max_size. lia. Qed.

Lemma str_truthy_false (s : string) : str_truthy s = false -> s = "".
Proof.
  unfold str_truthy. destruct (String.eqb_spec s ""); [auto|discriminate].
Qed.

Lemma nth_error_chunks (c : nat) (s : string) (m k : nat) (key v : string) :
  nth_error
    (map (fun k => (input_paths_key k, String.substring (k * c) c s)) (seq 0 m))
    k = Some (key, v) ->
  k < m /\ key = input_paths_key k /\ v = String.substring (k * c) c s.
Proof.
  rewrite nth_error_map, nth_error_seq.
  destruct (Nat.ltb_spec k m) as [Hlt|Hge]; simpl; intro H.
  - inversion H. auto.
  - discriminate H.
Qed.

(** The chunks of a non-empty string under any positive ceiling [c]. *)
Lemma split_input_paths_spec (c : nat) (s : string) :
  0 < c -> s <> "" ->
  exists d,
    split_input_paths c s = Return d /\
    List.length d = ceil_div (String.length s) c /\
    (forall k key v,
        nth_error d k = Some (key, v) ->
        key = input_paths_key k /\
        (S k < List.length d -> String.length v = c) /\
        (S k = List.length d ->
         String.length v = String.length s - k * c /\
         0 < String.length v <= c)) /\
    NoDup (dict_keys d) /\
    py_join "" (dict_values d) = s.
Proof.
  intros Hc Hs.
  rewrite (split_input_paths_chunks s Hc).
  eexists. split; [reflexivity|].
  set (m := ceil_div (String.length s) c).
  assert (Hn : 0 < String.length s).
  { destruct s; [congruence | simpl; lia]. }
  destruct (ceil_div_bounds Hc Hn) as (Hup & Hlow & Hm).
  fold m in Hup, Hlow, Hm.
  rewrite length_map, length_seq.
  split; [reflexivity|]. split; [|split].
  - intros k key v H.
    apply nth_error_chunks in H as (Hk & -> & ->).
    rewrite chunk_length.
    split; [reflexivity|]. split.
    + intro Hlt. nia.
    + intro Hlast. replace k with (m - 1) in * by lia. lia.
  - unfold dict_keys. rewrite map_map. simpl.
    apply Injective_map_NoDup; [exact input_paths_key_inj | apply seq_NoDup].
  - unfold dict_values. rewrite map_map. simpl. now apply chunks_concat.
Qed.

Lemma repeat_char_length (n : nat) (c : ascii) :
  String.length (repeat_char n c) = n.
Proof. induction n as [|n IH]; simpl; congruence. Qed.

Example split_input_paths_small :
  split_input_paths 3 "abcdefgh"
  = Return [("METAFLOW_INPUT_PATHS_0", "abc");
            ("METAFLOW_INPUT_PATHS_1", "def");
            ("METAFLOW_INPUT_PATHS_2", "gh")].
Proof. reflexivity. Qed.

Example split_input_paths_zero_ceiling :
  split_input_paths 0 "abcdefgh"
  = Raise (ValueError "range() arg 3 must not be zero").
Proof. reflexivity. Qed.

Lemma ceil_div_45000 : ceil_div (45 * 1000) max_size = 2.
Proof. vm_compute. reflexivity. Qed.

(** C3, amended: sizes are counted in characters, as [len] counts them,
    not in bytes. For every value [s] of the input-paths option the encoder yields
    [ceil(len(s) / 30720)] chunks (none for the empty string); the [k]-th
    chunk is stored under [METAFLOW_INPUT_PATHS_k], so the keys are pairwise
    distinct and in increasing index order; every chunk but the last has
    30720 characters and the last has between 1 and 30720; joining the chunk
    values in key order gives [s] back, and the value passed on for a
    non-empty [s] is the expression built from the keys in that order. A
    value of 45000 characters gives two chunks of 30720 and 14280 characters
    and the expression [${METAFLOW_INPUT_PATHS_0}${METAFLOW_INPUT_PATHS_1}].
    Sizes are lengths of Python strings, as [len] counts them. *)
Theorem encode_input_paths_chunks (s : string) :
  exists split_vars expr,
    encode_input_paths (Some s) = Return (split_vars, Some expr) /\
    let d := chunks_of split_vars in
    let n := String.length s in
    List.length d = ceil_div n max_size /\
    (s = "" -> d = []) /\
    (forall k key v,
        nth_error d k = Some (key, v) ->
        key = input_paths_key k /\
        (S k < List.length d -> String.length v = max_size) /\
        (S k = List.length d ->
         String.length v = n - k * max_size /\
         0 < String.length v <= max_size)) /\
    NoDup (dict_keys d) /\
    py_join "" (dict_values d) = s /\
    (s <> "" -> split_vars = Some d /\ expr = reconstruction d) /\
    (N.of_nat n = 45000%N ->
     map (fun v => N.of_nat (String.length v)) (dict_values d)
     = [30720%N; 14280%N] /\
     expr = "${METAFLOW_INPUT_PATHS_0}${METAFLOW_INPUT_PATHS_1}").
Proof.
  pose proof max_size_pos as Hc.
  unfold encode_input_paths.
  destruct (str_truthy s) eqn:Ht.
  - assert (Hs : s <> "") by (intros ->; discriminate Ht).
    destruct (split_input_paths_spec Hc Hs) as (d & -> & Hlen & Hnth & Hnd & Hcat).
    unfold obind. exists (Some d), (reconstruction d).
    split; [reflexivity|]. cbv zeta. unfold chunks_of.
    split; [exact Hlen|]. split; [contradiction|].
    split; [exact Hnth|]. split; [exact Hnd|]. split; [exact Hcat|].
    split; [intros _; split; reflexivity|].
    intro H45.
    assert (E : String.length s = 45 * 1000) by lia.
    rewrite E, ceil_div_45000 in Hlen.
    destruct d as [|[k0 v0] [|[k1 v1] [|? ?]]]; try discriminate Hlen.
    destruct (Hnth 0 k0 v0 eq_refl) as (-> & H0 & _).
    destruct (Hnth 1 k1 v1 eq_refl) as (-> & _ & H1).
    specialize (H0 ltac:(cbn [List.length]; lia)).
    specialize (H1 eq_refl). destruct H1 as (H1 & _).
    split; [|apply reconstruction_two].
    unfold dict_values. cbn [map snd]. rewrite H0, H1.
    unfold max_size. repeat f_equal; lia.
  - apply str_truthy_false in Ht. subst s.
    exists None, "". split; [reflexivity|]. cbv zeta. unfold chunks_of.
    split; [cbn [List.length String.length]; now rewrite ceil_div_0|].
    split; [reflexivity|].
    split; [intros [|k] key v H; discriminate H|].
    split; [constructor|].
    split; [reflexivity|].
    split; [intro H; now contradiction H|].
    intro H. cbn [String.length N.of_nat] in H. discriminate H.
Qed.

(** C9. The encoding of the input-paths option never raises: whatever the
    option holds, a string of any length and content or nothing, it returns
    the chunk mapping and the value to pass on. *)
Theorem encode_input_paths_total (input_paths : option string) :
  exists split_vars value,
    encode_input_paths input_paths = Return (split_vars, value).
Proof.
  destruct input_paths as [s|]; unfold encode_input_paths.
  - destruct (str_truthy s).
    + rewrite (split_input_paths_chunks s max_size_pos).
      unfold obind. eauto.
    + eauto.
  - eauto.
Qed.

(** ** More on the chunks *)

Lemma encode_input_paths_returns (input_paths : option string) :
  exists split_vars value,
    encode_input_paths input_paths = Return (split_vars, value).
Proof.
  destruct input_paths as [s|]; unfold encode_input_paths; [|eauto].
  destruct (str_truthy s); [|eauto].
  rewrite (split_input_paths_chunks s max_size_pos). unfold obind. eauto.
Qed.

Lemma str_truthy_true (s : string) : s <> "" -> str_truthy s = true.
Proof.
  unfold str_truthy. destruct (String.eqb_spec s ""); [contradiction|auto].
Qed.

(** What the encoder returns for a non-empty string. *)
Lemma encode_input_paths_nonempty (s : string) :
  s <> "" ->
  encode_input_paths (Some s)
  = Return
      (Some (map (fun k => (input_paths_key k,
                            String.substring (k * max_size) max_size s))
               (seq 0 (ceil_div (String.length s) max_size))),
       Some (py_join ""
               (map (fun k => "${" ++ input_paths_key k ++ "}")
                  (seq 0 (ceil_div (String.length s) max_size))))).
Proof.
  intro Hs. unfold encode_input_paths.
  rewrite (str_truthy_true Hs), (split_input_paths_chunks s max_size_pos).
  unfold obind, reconstruction, dict_keys. now rewrite !map_map.
Qed.

Lemma substring_all (s : string) :
  forall c, String.length s <= c -> String.substring 0 c s = s.
Proof.
  induction s as [|a s IH]; intros [|c] H; simpl in *; try reflexivity.
  - lia.
  - rewrite IH by lia. reflexivity.
Qed.

Lemma ceil_div_small (n c : nat) : 0 < n -> n <= c -> ceil_div n c = 1.
Proof.
  intros Hn Hc. unfold ceil_div.
  symmetry. apply (Nat.div_unique _ _ _ (n - 1)); lia.
Qed.

Lemma ceil_div_multiple (k c : nat) : 0 < c -> ceil_div (k * c) c = k.
Proof.
  intro Hc. unfold ceil_div.
  symmetry. apply (Nat.div_unique _ _ _ (c - 1)); lia.
Qed.

Lemma nonempty_length (s : string) : s <> "" -> 0 < String.length s.
Proof. destruct s; [congruence | simpl; lia]. Qed.

Lemma encode_input_paths_short (s : string) :
  s <> "" ->
  String.length s <= max_size ->
  encode_input_paths (Some s)
  = Return (Some [("METAFLOW_INPUT_PATHS_0", s)],
            Some "${METAFLOW_INPUT_PATHS_0}").
Proof.
  intros Hs Hlen.
  rewrite (encode_input_paths_nonempty Hs).
  rewrite (ceil_div_small (nonempty_length Hs) Hlen).
  change (seq 0 1) with [0]. cbn [map]. rewrite Nat.mul_0_l.
  rewrite (substring_all s Hlen). reflexivity.
Qed.

Lemma utf8_size_repeat_char (n : nat) (c : ascii) :
  utf8_size (repeat_char n c)
  = (N.of_nat n * (if (nat_of_ascii c <? 128)%nat then 1 else 2))%N.
Proof.
  induction n as [|n IH].
  - reflexivity.
  - cbn [repeat_char utf8_size]. rewrite IH.
    destruct (nat_of_ascii c <? 128)%nat; lia.
Qed.

(** X19. A non-empty value of at most 30720 characters is not cut: it is
    stored whole in [METAFLOW_INPUT_PATHS_0] and the option is replaced by
    [${METAFLOW_INPUT_PATHS_0}]. *)
Theorem short_input_single_chunk (s : string) :
  s <> "" ->
  String.length s <= max_size ->
  encode_input_paths (Some s)
  = Return (Some [("METAFLOW_INPUT_PATHS_0", s)],
            Some "${METAFLOW_INPUT_PATHS_0}").
Proof.
  intros Hs Hlen.
  rewrite (encode_input_paths_nonempty Hs).
  rewrite (ceil_div_small (nonempty_length Hs) Hlen).
  change (seq 0 1) with [0]. cbn [map]. rewrite Nat.mul_0_l.
  rewrite (substring_all s Hlen). reflexivity.
Qed.

(** X21. A value whose length is an exact multiple [k * 30720] gives [k]
    chunks, all of them full: there is no empty or shorter last chunk. *)
Theorem exact_multiple_full_chunks (s : string) (k : nat) :
  0 < k ->
  String.length s = k * max_size ->
  exists d expr,
    encode_input_paths (Some s) = Return (Some d, Some expr) /\
    List.length d = k /\
    Forall (fun kv => String.length (snd kv) = max_size) d.
Proof.
  intros Hk Hlen. pose proof max_size_pos as Hc.
  assert (Hs : s <> "").
  { intros ->. cbn [String.length] in Hlen. nia. }
  rewrite (encode_input_paths_nonempty Hs).
  rewrite Hlen, (ceil_div_multiple k Hc).
  eexists _, _. split; [reflexivity|]. split.
  - now rewrite length_map, length_seq.
  - apply Forall_forall. intros [key v] Hin.
    apply in_map_iff in Hin as (j & E & Hj). inversion E; subst.
    apply in_seq in Hj. cbn [snd]. rewrite chunk_length, Hlen. nia.
Qed.

Lemma dict_get_indexed {V} (key : nat -> string) (val : nat -> V) :
  Injective key ->
  forall n a j,
    dict_get (map (fun k => (key k, val k)) (seq a n)) (key j)
    = if (a <=? j)%nat && (j <? a + n)%nat then Some (val j) else None.
Proof.
  intros Hinj. induction n as [|n IH]; intros a j.
  - cbn [seq map dict_get].
    destruct (Nat.leb_spec a j), (Nat.ltb_spec j (a + 0)); simpl; auto; lia.
  - cbn [seq map dict_get]. rewrite IH.
    destruct (String.eqb_spec (key a) (key j)) as [E|E].
    + apply Hinj in E. subst j.
      destruct (Nat.leb_spec a a), (Nat.ltb_spec a (a + S n)); simpl; auto; lia.
    + assert (a <> j) by congruence.
      destruct (Nat.leb_spec (S a) j), (Nat.ltb_spec j (S a + n)),
        (Nat.leb_spec a j), (Nat.ltb_spec j (a + S n)); simpl; auto; lia.
Qed.

Lemma dict_get_foreign {V} (key : nat -> string) (val : nat -> V) (k : string) :
  (forall j, k <> key j) ->
  forall l, dict_get (map (fun j => (key j, val j)) l) k = None.
Proof.
  intros Hk. induction l as [|j l IH]; cbn [map dict_get]; [reflexivity|].
  destruct (String.eqb_spec (key j) k) as [E|_]; [|exact IH].
  exfalso. now apply (Hk j).
Qed.

(** X22. Looking a chunk up by its name: in the mapping that the encoder
    returns for [s], [METAFLOW_INPUT_PATHS_k] holds the slice
    [s[k * 30720 : (k + 1) * 30720]] for every [k] below the number of
    chunks, and the mapping has no other key. *)
Theorem chunk_lookup (s : string) :
  exists split_vars value,
    encode_input_paths (Some s) = Return (split_vars, value) /\
    (forall k,
        dict_get (chunks_of split_vars) (input_paths_key k)
        = if (k <? ceil_div (String.length s) max_size)%nat
          then Some (py_slice s (k * max_size) (k * max_size + max_size))
          else None) /\
    (forall key,
        (forall k, key <> input_paths_key k) ->
        dict_get (chunks_of split_vars) key = None).
Proof.
  pose proof max_size_pos as Hc.
  destruct (String.eqb_spec s "") as [->|Hs].
  - exists None, (Some ""). split; [reflexivity|].
    cbn [chunks_of String.length dict_get]. rewrite (ceil_div_0 Hc).
    split; reflexivity.
  - rewrite (encode_input_paths_nonempty Hs).
    eexists _, _. split; [reflexivity|]. cbn [chunks_of]. split.
    + intro k. rewrite (@dict_get_indexed _ input_paths_key _ input_paths_key_inj).
      unfold py_slice.
      replace (k * max_size + max_size - k * max_size) with max_size by lia.
      now rewrite Nat.add_0_l.
    + intros key Hkey. now apply dict_get_foreign.
Qed.

(** ** Events of the parts of a run *)

Lemma count_app (p : event -> bool) (t1 t2 : list event) :
  count p (t1 ++ t2) = count p t1 + count p t2.
Proof. unfold count. now rewrite filter_app, length_app. Qed.

Lemma count_output (p : event -> bool) (t : list event) :
  (forall ev, is_output ev = true -> p ev = false) ->
  forallb is_output t = true ->
  count p t = 0.
Proof.
  intros Hp. unfold count. induction t as [|ev t IH]; simpl; intro H.
  - reflexivity.
  - apply andb_prop in H as [Hev Ht]. rewrite (Hp ev Hev). now apply IH.
Qed.

Lemma output_not_sync ev : is_output ev = true -> is_sync ev = false.
Proof. now destruct ev. Qed.
Lemma output_not_launch ev : is_output ev = true -> is_launch ev = false.
Proof. now destruct ev. Qed.
Lemma output_not_traceback ev : is_output ev = true -> is_traceback ev = false.
Proof. now destruct ev. Qed.
Lemma output_not_wait ev : is_output ev = true -> is_wait ev = false.
Proof. now destruct ev. Qed.

(** Counting in a trace that has a part [t] of messages and pauses. *)
Ltac count_outputs H :=
  rewrite ?(@count_output _ _ output_not_launch H),
    ?(@count_output _ _ output_not_wait H),
    ?(@count_output _ _ output_not_sync H),
    ?(@count_output _ _ output_not_traceback H).

Lemma echo_emits (c : echo_call) :
  exists msg err, echo c = emit (EchoAlways msg err).
Proof. unfold echo. eauto. Qed.

Lemma for_each_echo (calls : list echo_call) :
  result (for_each echo calls) = Return tt /\
  forallb is_output (events (for_each echo calls)) = true.
Proof.
  induction calls as [|c calls [IHr IHe]].
  - split; reflexivity.
  - change (for_each echo (c :: calls))
      with (bind (echo c) (fun _ => for_each echo calls)).
    destruct (echo_emits c) as (msg & err & ->).
    unfold emit, bind.
    destruct (for_each echo calls) as [t r]. simpl in *. now subst.
Qed.

Lemma bind_events {A B} (m : action A) (k : A -> action B) (a : A) :
  result m = Return a ->
  events (bind m k) = (events m ++ events (k a))%list /\
  result (bind m k) = result (k a).
Proof.
  destruct m as [t r]. simpl. intros ->. unfold bind.
  destruct (k a). split; reflexivity.
Qed.


Lemma retry_backoff_output ctx (n : Z) (minutes : option Z) :
  forallb is_output (events (retry_backoff ctx n minutes)) = true.
Proof.
  unfold retry_backoff, time_sleep.
  destruct (n =? 0)%Z; [reflexivity|].
  destruct minutes as [m|]; [|reflexivity].
  cbn -[Z.mul Z.abs Z.ltb PyTime_max_seconds string_of_Z String.append].
  destruct (PyTime_max_seconds <? Z.abs (m * 60))%Z; [reflexivity|].
  destruct (m * 60 <? 0)%Z; [reflexivity|].
  destruct (os_sleep ctx (m * 60)); reflexivity.
Qed.

(** What a preparation that reached its end went through. *)
Lemma prepare_inv ctx step_name sha url opts kwargs p :
  result (prepare ctx step_name sha url opts kwargs) = Return p ->
  exists split_vars value minutes env0,
    encode_input_paths (input_paths kwargs) = Return (split_vars, value) /\
    minutes_between_retries (graph ctx step_name) = Return minutes /\
    declared_env (graph ctx step_name) = Return env0 /\
    merge_env env0 split_vars = Return (job_env (request p)) /\
    result (retry_backoff ctx (retry_count kwargs) minutes) = Return tt /\
    events (prepare ctx step_name sha url opts kwargs)
    = events (retry_backoff ctx (retry_count kwargs) minutes) /\
    final_kwargs p = set_input_paths kwargs value.
Proof.
  unfold prepare.
  destruct (encode_input_paths (input_paths kwargs)) as [[sv v]|e1];
    [|discriminate].
  destruct (minutes_between_retries (graph ctx step_name)) as [minutes|e2];
    [|discriminate].
  destruct (declared_env (graph ctx step_name)) as [env0|e3]; [|discriminate].
  cbn [lift bind fst snd retry_count set_input_paths].
  destruct (merge_env env0 sv) as [env|e4] eqn:Hm; [|discriminate].
  destruct (retry_backoff ctx (retry_count kwargs) minutes) as [t [[]|e5]] eqn:Hb;
    [|discriminate].
  cbn. intro H. injection H as <-. cbn.
  exists sv, v, minutes, env0. rewrite !List.app_nil_r, Hb.
  repeat split. exact Hm.
Qed.

Lemma prepare_output ctx step_name sha url opts kwargs :
  forallb is_output (events (prepare ctx step_name sha url opts kwargs)) = true.
Proof.
  unfold prepare.
  destruct (encode_input_paths (input_paths kwargs)) as [[sv v]|e1];
    [|reflexivity].
  destruct (minutes_between_retries (graph ctx step_name)) as [minutes|e2];
    [|reflexivity].
  destruct (declared_env (graph ctx step_name)) as [env0|e3]; [|reflexivity].
  cbn [lift bind fst snd retry_count set_input_paths].
  destruct (merge_env env0 sv) as [env|e4]; [|reflexivity].
  pose proof (retry_backoff_output ctx (retry_count kwargs) minutes) as H.
  destruct (retry_backoff ctx (retry_count kwargs) minutes) as [t [[]|e5]];
    cbn in *; now rewrite ?List.app_nil_r.
Qed.

(** ** The three ways through submission and monitoring *)

Lemma batch_wait_inv ctx so se :
  exists t,
    batch_wait ctx so se = (Wait so se :: t, snd (wait ctx so se)) /\
    forallb is_output t = true.
Proof.
  unfold batch_wait. destruct (wait ctx so se) as [calls r].
  destruct (for_each_echo calls) as [Hr He].
  destruct (for_each echo calls) as [t r']. simpl in Hr, He. subst r'.
  exists t. split; [|assumption].
  unfold emit, lift, bind. simpl. now rewrite List.app_nil_r.
Qed.

(** The backend refuses the job with an [Exception]: the handler prints it,
    syncs and exits. *)
Lemma submit_refused ctx step_name p e :
  launch_job ctx (request p) = Raise e ->
  is_Exception e = true ->
  submit_and_monitor ctx step_name p
  = ([LaunchJob (request p); PrintException e;
      SyncLocalMetadata (get_task_datastore ctx step_name (final_kwargs p))],
     match sync_local_metadata_from_datastore ctx
             (get_task_datastore ctx step_name (final_kwargs p)) with
     | Return _ => Raise (SystemExit METAFLOW_EXIT_DISALLOW_RETRY)
     | Raise e' => Raise e'
     end).
Proof.
  intros Hl He.
  unfold submit_and_monitor, batch_launch_job, sync_metadata, sys_exit, raise,
    try_except, emit, lift, bind.
  rewrite Hl. simpl. rewrite He.
  destruct (sync_local_metadata_from_datastore ctx _) as [[]|e']; reflexivity.
Qed.

(** What is raised past [except Exception] leaves at once. *)
Lemma submit_interrupted ctx step_name p e :
  launch_job ctx (request p) = Raise e ->
  is_Exception e = false ->
  submit_and_monitor ctx step_name p = ([LaunchJob (request p)], Raise e).
Proof.
  intros Hl He.
  unfold submit_and_monitor, batch_launch_job, try_except, emit, lift, bind.
  rewrite Hl. simpl. now rewrite He.
Qed.

(** The backend takes the job: the wait runs, a kill is traced and turned
    into an exit, and the sync runs last whatever the wait did. *)
Lemma submit_accepted ctx step_name p :
  launch_job ctx (request p) = Return tt ->
  exists t,
    forallb is_output t = true /\
    let r := snd (wait ctx (stdout_location p) (stderr_location p)) in
    let ds := get_task_datastore ctx step_name (final_kwargs p) in
    submit_and_monitor ctx step_name p
    = ((LaunchJob (request p)
        :: Wait (stdout_location p) (stderr_location p)
        :: t
        ++ match r with
           | Raise (BatchKilledException msg) =>
               [PrintTraceback (BatchKilledException msg)]
           | _ => []
           end
        ++ [SyncLocalMetadata ds])%list,
       match sync_local_metadata_from_datastore ctx ds with
       | Raise e' => Raise e'
       | Return _ =>
           match r with
           | Return a => Return a
           | Raise e =>
               if is_BatchKilledException e
               then Raise (SystemExit METAFLOW_EXIT_DISALLOW_RETRY)
               else Raise e
           end
       end).
Proof.
  intro Hl.
  destruct (batch_wait_inv ctx (stdout_location p) (stderr_location p))
    as (t & Hw & Ht).
  exists t. split; [assumption|]. cbv zeta.
  unfold submit_and_monitor, batch_launch_job, sync_metadata, sys_exit, raise,
    try_finally, try_except.
  rewrite Hw, Hl. unfold emit, lift, bind. simpl.
  destruct (snd (wait ctx (stdout_location p) (stderr_location p)))
    as [[]|e]; simpl.
  - destruct (sync_local_metadata_from_datastore ctx _) as [[]|e'];
      now rewrite ?List.app_nil_r.
  - destruct e; simpl;
      destruct (sync_local_metadata_from_datastore ctx _) as [[]|e'];
      simpl; rewrite <- ?app_assoc; reflexivity.
Qed.

Lemma output_no_launch (t : list event) (req : launch_request) :
  forallb is_output t = true -> ~ In (LaunchJob req) t.
Proof.
  intros H Hin. rewrite forallb_forall in H. now specialize (H _ Hin).
Qed.

(** A run that was prepared continues with the submission. *)
Lemma step_after_prepare ctx step_name sha url opts kwargs p :
  result (prepare ctx step_name sha url opts kwargs) = Return p ->
  events (step ctx step_name sha url opts kwargs)
  = (events (prepare ctx step_name sha url opts kwargs)
     ++ events (submit_and_monitor ctx step_name p))%list /\
  result (step ctx step_name sha url opts kwargs)
  = result (submit_and_monitor ctx step_name p).
Proof. intro H. unfold step. now apply bind_events. Qed.

Lemma prepared_task_datastore ctx step_name sha url opts kwargs p :
  result (prepare ctx step_name sha url opts kwargs) = Return p ->
  get_task_datastore ctx step_name (final_kwargs p)
  = get_task_datastore ctx step_name kwargs.
Proof.
  intro H. apply prepare_inv in H as (sv & v & m & env0 & H).
  destruct H as (_ & _ & _ & _ & _ & _ & ->). reflexivity.
Qed.

(** The job is submitted once, with the prepared request, whatever follows. *)
Lemma submit_once ctx step_name p :
  count is_launch (events (submit_and_monitor ctx step_name p)) = 1 /\
  forall req,
    In (LaunchJob req) (events (submit_and_monitor ctx step_name p)) ->
    req = request p.
Proof.
  destruct (launch_job ctx (request p)) as [[]|e] eqn:Hl.
  - destruct (@submit_accepted ctx step_name p Hl) as (t & Ht & E).
    cbv zeta in E. rewrite E. cbn [events fst].
    change (?a :: ?b :: (?t ++ ?u)%list) with ([a; b] ++ (t ++ u))%list.
    split.
    + rewrite !count_app, (@count_output _ _ output_not_launch Ht).
      destruct (snd (wait ctx _ _)) as [[]|[]]; reflexivity.
    + intros req Hin. apply in_app_or in Hin as [Hin|Hin].
      * simpl in Hin.
        destruct Hin as [H|[H|[]]]; [now inversion H | discriminate H].
      * apply in_app_or in Hin as [Hin|Hin];
          [now apply output_no_launch in Hin|].
        apply in_app_or in Hin as [Hin|Hin].
        -- destruct (snd (wait ctx _ _)) as [[]|[]]; simpl in Hin;
             try contradiction; destruct Hin as [H|[]]; discriminate H.
        -- destruct Hin as [H|[]]; discriminate H.
  - destruct (is_Exception e) eqn:He.
    + rewrite (@submit_refused ctx step_name p e Hl He). split; [reflexivity|].
      intros req [H|[H|[H|[]]]]; try discriminate H. now inversion H.
    + rewrite (@submit_interrupted ctx step_name p e Hl He). split; [reflexivity|].
      intros req [H|[]]. now inversion H.
Qed.

(** The result and the events of a run whose submission is refused. *)
Lemma refused_run ctx step_name sha url opts kwargs p e :
  result (prepare ctx step_name sha url opts kwargs) = Return p ->
  launch_job ctx (request p) = Raise e ->
  is_Exception e = true ->
  let ds := get_task_datastore ctx step_name kwargs in
  let run := step ctx step_name sha url opts kwargs in
  events run
  = (events (prepare ctx step_name sha url opts kwargs)
     ++ [LaunchJob (request p); PrintException e; SyncLocalMetadata ds])%list /\
  result run
  = match sync_local_metadata_from_datastore ctx ds with
    | Return _ => Raise (SystemExit METAFLOW_EXIT_DISALLOW_RETRY)
    | Raise e' => Raise e'
    end.
Proof.
  intros Hp Hl He. cbv zeta.
  destruct (@step_after_prepare ctx step_name sha url opts kwargs p Hp)
    as [-> ->].
  rewrite (@submit_refused ctx step_name p e Hl He).
  now rewrite (@prepared_task_datastore ctx step_name sha url opts kwargs p Hp).
Qed.

(** The result and the events of a run whose job was taken. *)
Lemma accepted_run ctx step_name sha url opts kwargs p :
  result (prepare ctx step_name sha url opts kwargs) = Return p ->
  launch_job ctx (request p) = Return tt ->
  let r := snd (wait ctx (stdout_location p) (stderr_location p)) in
  let ds := get_task_datastore ctx step_name kwargs in
  let run := step ctx step_name sha url opts kwargs in
  exists t,
    forallb is_output t = true /\
    events run
    = (events (prepare ctx step_name sha url opts kwargs)
       ++ LaunchJob (request p)
       :: Wait (stdout_location p) (stderr_location p)
       :: t
       ++ match r with
          | Raise (BatchKilledException msg) =>
              [PrintTraceback (BatchKilledException msg)]
          | _ => []
          end
       ++ [SyncLocalMetadata ds])%list /\
    result run
    = match sync_local_metadata_from_datastore ctx ds with
      | Raise e' => Raise e'
      | Return _ =>
          match r with
          | Return a => Return a
          | Raise e =>
              if is_BatchKilledException e
              then Raise (SystemExit METAFLOW_EXIT_DISALLOW_RETRY)
              else Raise e
          end
      end.
Proof.
  intros Hp Hl. cbv zeta.
  destruct (@step_after_prepare ctx step_name sha url opts kwargs p Hp)
    as [-> ->].
  destruct (@submit_accepted ctx step_name p Hl) as (t & Ht & E).
  cbv zeta in E. rewrite E. cbn [events result fst snd].
  rewrite (@prepared_task_datastore ctx step_name sha url opts kwargs p Hp).
  exists t. auto.
Qed.

(** Counting in a run whose job was taken: one submission, one wait, one
    sync at the very end, and a trace exactly when the wait reported a
    kill. *)
Lemma accepted_run_counts (t0 t t' : list event) req so se ds :
  forallb is_output t0 = true ->
  forallb is_output t = true ->
  let run := (t0 ++ LaunchJob req :: Wait so se :: t
                 ++ t' ++ [SyncLocalMetadata ds])%list in
  count is_launch run = 1 + count is_launch t' /\
  count is_wait run = 1 + count is_wait t' /\
  count is_sync run = count is_sync t' + 1 /\
  count is_traceback run = count is_traceback t'.
Proof.
  intros H0 Ht. cbv zeta.
  change (?a :: ?b :: (?u ++ ?v)%list) with ([a; b] ++ (u ++ v))%list.
  rewrite !count_app. count_outputs H0. count_outputs Ht.
  cbn. repeat split; lia.
Qed.

Lemma accepted_run_summary ctx step_name sha url opts kwargs p :
  result (prepare ctx step_name sha url opts kwargs) = Return p ->
  launch_job ctx (request p) = Return tt ->
  let r := snd (wait ctx (stdout_location p) (stderr_location p)) in
  let ds := get_task_datastore ctx step_name kwargs in
  let run := step ctx step_name sha url opts kwargs in
  let trace :=
    match r with
    | Raise (BatchKilledException msg) =>
        [PrintTraceback (BatchKilledException msg)]
    | _ => []
    end in
  count is_launch (events run) = 1 /\
  count is_wait (events run) = 1 /\
  count is_sync (events run) = 1 /\
  count is_traceback (events run) = List.length trace /\
  (exists t, events run = (t ++ trace ++ [SyncLocalMetadata ds])%list) /\
  result run
  = match sync_local_metadata_from_datastore ctx ds with
    | Raise e' => Raise e'
    | Return _ =>
        match r with
        | Return a => Return a
        | Raise e =>
            if is_BatchKilledException e
            then Raise (SystemExit METAFLOW_EXIT_DISALLOW_RETRY)
            else Raise e
        end
    end.
Proof.
  intros Hp Hl. cbv zeta.
  destruct (@accepted_run ctx step_name sha url opts kwargs p Hp Hl)
    as (t & Ht & -> & ->).
  pose proof (prepare_output ctx step_name sha url opts kwargs) as H0.
  set (trace := match snd (wait ctx _ _) with
                | Raise (BatchKilledException msg) =>
                    [PrintTraceback (BatchKilledException msg)]
                | _ => []
                end).
  destruct (@accepted_run_counts _ _ trace (request p) (stdout_location p)
              (stderr_location p) (get_task_datastore ctx step_name kwargs)
              H0 Ht) as (C1 & C2 & C3 & C4).
  cbv zeta in C1, C2, C3, C4. rewrite C1, C2, C3, C4.
  assert (Htr : count is_launch trace = 0 /\ count is_wait trace = 0 /\
                count is_sync trace = 0 /\
                count is_traceback trace = List.length trace).
  { unfold trace. destruct (snd (wait ctx _ _)) as [[]|[]]; repeat split. }
  destruct Htr as (-> & -> & -> & ->).
  repeat split.
  exists (events (prepare ctx step_name sha url opts kwargs)
          ++ LaunchJob (request p)
          :: Wait (stdout_location p) (stderr_location p) :: t)%list.
  rewrite <- app_assoc. reflexivity.
Qed.

Lemma refused_run_counts ctx step_name sha url opts kwargs p e :
  result (prepare ctx step_name sha url opts kwargs) = Return p ->
  launch_job ctx (request p) = Raise e ->
  is_Exception e = true ->
  let run := step ctx step_name sha url opts kwargs in
  count is_launch (events run) = 1 /\
  count is_wait (events run) = 0 /\
  count is_sync (events run) = 1 /\
  count is_traceback (events run) = 0.
Proof.
  intros Hp Hl He. cbv zeta.
  destruct (@refused_run ctx step_name sha url opts kwargs p e Hp Hl He)
    as [-> _].
  pose proof (prepare_output ctx step_name sha url opts kwargs) as H0.
  rewrite !count_app. count_outputs H0.
  repeat split.
Qed.

(** X24. Outside the ways out that [exit_path] lists: what [launch_job]
    raises past [except Exception] (an interrupt, an exit) leaves the run
    at once, unchanged, and no sync is called. *)
Lemma interrupted_submission_skips_sync ctx step_name sha url opts kwargs p e :
  result (prepare ctx step_name sha url opts kwargs) = Return p ->
  launch_job ctx (request p) = Raise e ->
  is_Exception e = false ->
  let run := step ctx step_name sha url opts kwargs in
  result run = Raise e /\ count is_sync (events run) = 0.
Proof.
  intros Hp Hl He. cbv zeta.
  destruct (@step_after_prepare ctx step_name sha url opts kwargs p Hp)
    as [-> ->].
  rewrite (@submit_interrupted ctx step_name p e Hl He).
  pose proof (prepare_output ctx step_name sha url opts kwargs) as H0.
  split; [reflexivity|].
  now rewrite count_app, (@count_output _ _ output_not_sync H0).
Qed.

(** ** The metadata sync on every way out *)

(** C1. On every way out of a run that reached the submission (the backend
    refused the job; the job ran and the wait returned; the wait reported an
    external kill; the wait, or the callback relaying the log inside it,
    raised anything else), [sync_local_metadata_from_datastore] is called
    exactly once, and it is the last thing the run does before it exits or
    the failure propagates. *)
Theorem sync_exactly_once ctx step_name sha url opts kwargs p :
  result (prepare ctx step_name sha url opts kwargs) = Return p ->
  exit_path ctx p ->
  let run := step ctx step_name sha url opts kwargs in
  count is_sync (events run) = 1 /\
  exists t,
    events run
    = (t ++ [SyncLocalMetadata (get_task_datastore ctx step_name kwargs)])%list.
Proof.
  intros Hp Hpath. cbv zeta.
  destruct Hpath as [e Hl He | Hl Hw | msg Hl Hw | e Hl Hw Hk].
  - split.
    + apply (@refused_run_counts ctx step_name sha url opts kwargs p e Hp Hl He).
    + destruct (@refused_run ctx step_name sha url opts kwargs p e Hp Hl He)
        as [-> _].
      exists (events (prepare ctx step_name sha url opts kwargs)
              ++ [LaunchJob (request p); PrintException e])%list.
      now rewrite <- app_assoc.
  - destruct (@accepted_run_summary ctx step_name sha url opts kwargs p Hp Hl)
      as (_ & _ & Hc & _ & (t & Ht) & _).
    split; [exact Hc|]. rewrite Hw in Ht. now exists t.
  - destruct (@accepted_run_summary ctx step_name sha url opts kwargs p Hp Hl)
      as (_ & _ & Hc & _ & (t & Ht) & _).
    split; [exact Hc|]. rewrite Hw in Ht.
    exists (t ++ [PrintTraceback (BatchKilledException msg)])%list.
    now rewrite <- app_assoc.
  - destruct (@accepted_run_summary ctx step_name sha url opts kwargs p Hp Hl)
      as (_ & _ & Hc & _ & (t & Ht) & _).
    split; [exact Hc|]. rewrite Hw in Ht.
    destruct e; try discriminate Hk; now exists t.
Qed.



(** C7, amended. When the wait raises anything but
    [BatchKilledException], no handler runs and nothing is printed; the
    sync is called, once, as the last thing the run does. When the sync
    returns the run raises the very exception of the wait, not turned into
    an exit; when the sync itself raises, the run raises that exception
    instead. *)
Theorem other_wait_failure_propagates ctx step_name sha url opts kwargs p e :
  result (prepare ctx step_name sha url opts kwargs) = Return p ->
  launch_job ctx (request p) = Return tt ->
  snd (wait ctx (stdout_location p) (stderr_location p)) = Raise e ->
  is_BatchKilledException e = false ->
  let ds := get_task_datastore ctx step_name kwargs in
  let run := step ctx step_name sha url opts kwargs in
  result run
  = match sync_local_metadata_from_datastore ctx ds with
    | Return _ => Raise e
    | Raise e' => Raise e'
    end /\
  (exists t, events run = (t ++ [SyncLocalMetadata ds])%list) /\
  count is_sync (events run) = 1 /\
  count is_traceback (events run) = 0.
Proof.
  intros Hp Hl Hw Hk. cbv zeta.
  destruct (@accepted_run_summary ctx step_name sha url opts kwargs p Hp Hl)
    as (_ & _ & Cs & Ct & (t & Ht) & Hres).
  rewrite Hw in Ct, Ht, Hres. rewrite Hk in Hres.
  split.
  - rewrite Hres.
    now destruct (sync_local_metadata_from_datastore ctx _) as [[]|e'].
  - destruct e; try discriminate Hk; repeat split; try assumption;
      now exists t.
Qed.


(** ** The environment handed to the backend *)

Lemma encode_input_paths_nodup input_paths split_vars value :
  encode_input_paths input_paths = Return (split_vars, value) ->
  NoDup (dict_keys (chunks_of split_vars)).
Proof.
  unfold encode_input_paths. destruct input_paths as [s|].
  - destruct (str_truthy s) eqn:Ht.
    + assert (Hs : s <> "") by (intros ->; discriminate Ht).
      destruct (split_input_paths_spec max_size_pos Hs)
        as (d & -> & _ & _ & Hnd & _).
      unfold obind. intro H. inversion H; subst. exact Hnd.
    + intro H. inversion H; subst. constructor.
  - intro H. inversion H; subst. constructor.
Qed.

Lemma step_launches_prepared ctx step_name sha url opts kwargs p :
  result (prepare ctx step_name sha url opts kwargs) = Return p ->
  let run := step ctx step_name sha url opts kwargs in
  count is_launch (events run) = 1 /\
  forall req, In (LaunchJob req) (events run) -> req = request p.
Proof.
  intro Hp. cbv zeta.
  destruct (@step_after_prepare ctx step_name sha url opts kwargs p Hp)
    as [-> _].
  pose proof (prepare_output ctx step_name sha url opts kwargs) as H0.
  destruct (submit_once ctx step_name p) as [Hc Hin].
  split.
  - now rewrite count_app, (@count_output _ _ output_not_launch H0), Hc.
  - intros req H. apply in_app_or in H as [H|H].
    + now apply output_no_launch in H.
    + now apply Hin.
Qed.

(** C6. When the step declares an environment mapping [declared], the
    environment of the one request handed to [launch_job] is a mapping
    [env] that has every key of [declared], gives every chunk variable the
    chunk as its value, and gives every other key the value [declared]
    gives it: the chunk variables are added to the declared environment and
    no declared key is lost. *)
Theorem declared_env_merged ctx step_name sha url opts kwargs p declared :
  result (prepare ctx step_name sha url opts kwargs) = Return p ->
  declared_env (graph ctx step_name) = Return (PyDict declared) ->
  let run := step ctx step_name sha url opts kwargs in
  exists split_vars value env,
    encode_input_paths (input_paths kwargs) = Return (split_vars, value) /\
    count is_launch (events run) = 1 /\
    (forall req, In (LaunchJob req) (events run) -> job_env req = PyDict env) /\
    (forall k, In k (dict_keys declared) -> In k (dict_keys env)) /\
    (forall k v,
        dict_get (chunks_of split_vars) k = Some v -> dict_get env k = Some v) /\
    (forall k,
        dict_get (chunks_of split_vars) k = None ->
        dict_get env k = dict_get declared k).
Proof.
  intros Hp Hd. cbv zeta.
  destruct (@step_launches_prepared ctx step_name sha url opts kwargs p Hp)
    as [Hc Hreq].
  destruct (prepare_inv _ _ _ _ _ _ Hp)
    as (sv & v & m & env0 & Henc & _ & Hd' & Hm & _).
  rewrite Hd in Hd'. inversion Hd'; subst env0.
  pose proof (encode_input_paths_nodup _ Henc) as Hnd.
  unfold merge_env in Hm. destruct (split_vars_truthy sv) eqn:Ht.
  - simpl in Hm. inversion Hm as [Hm'].
    exists sv, v, (dict_update declared (chunks_of sv)).
    split; [exact Henc|]. split; [exact Hc|]. split; [|split; [|split]].
    + intros req H. now rewrite (Hreq req H).
    + intros k. apply dict_keys_update.
    + intros k x H. now rewrite dict_get_update, H.
    + intros k H. now rewrite dict_get_update, H.
  - inversion Hm as [Hm'].
    assert (E : chunks_of sv = []) by (destruct sv as [[|? ?]|]; easy).
    exists sv, v, declared. rewrite E.
    split; [exact Henc|]. split; [exact Hc|]. split; [|split; [|split]].
    + intros req H. now rewrite (Hreq req H).
    + auto.
    + intros k x H. discriminate H.
    + reflexivity.
Qed.

(** C8. When the input-paths option is absent or the empty string, the
    encoder produces no chunk and hands the option back as it was; a run
    then passes its options on unchanged and submits the declared
    environment as it is. *)
Theorem empty_input_paths_not_encoded ctx step_name sha url opts kwargs :
  input_paths kwargs = None \/ input_paths kwargs = Some "" ->
  exists split_vars,
    encode_input_paths (input_paths kwargs)
    = Return (split_vars, input_paths kwargs) /\
    chunks_of split_vars = [] /\
    forall p,
      result (prepare ctx step_name sha url opts kwargs) = Return p ->
      final_kwargs p = kwargs /\
      declared_env (graph ctx step_name) = Return (job_env (request p)).
Proof.
  intro H. exists None.
  assert (Henc : encode_input_paths (input_paths kwargs)
                 = Return (None, input_paths kwargs)).
  { destruct H as [-> | ->]; reflexivity. }
  split; [exact Henc|]. split; [reflexivity|].
  intros p Hp.
  destruct (prepare_inv _ _ _ _ _ _ Hp)
    as (sv & v & m & env0 & Henc' & _ & Hd & Hm & _ & _ & Hk).
  rewrite Henc in Henc'. inversion Henc'; subst sv v.
  split.
  - rewrite Hk. now destruct kwargs.
  - unfold merge_env in Hm. simpl in Hm. now rewrite Hd, Hm.
Qed.

(** ** The pause before a retry *)

Lemma retry_backoff_first_attempt ctx (minutes : option Z) :
  retry_backoff ctx 0 minutes = ([], Return tt).
Proof. reflexivity. Qed.

(** With a delay of [m] minutes that [time.sleep] takes and the operating
    system grants, a retry announces the pause and sleeps [m * 60]
    seconds. *)
Lemma retry_backoff_blocks ctx (n m : Z) :
  n <> 0%Z ->
  (0 <= m * 60 <= PyTime_max_seconds)%Z ->
  os_sleep ctx (m * 60) = Return tt ->
  retry_backoff ctx n (Some m)
  = ([EchoAlways ("Sleeping " ++ string_of_Z m
                  ++ " minutes before the next AWS Batch retry") false;
      Sleep (m * 60)],
     Return tt).
Proof.
  intros Hn Hm Hos. unfold retry_backoff, time_sleep.
  destruct (Z.eqb_spec n 0) as [|_]; [contradiction|].
  cbn -[Z.mul Z.abs Z.ltb PyTime_max_seconds string_of_Z String.append].
  destruct (Z.ltb_spec PyTime_max_seconds (Z.abs (m * 60))); [lia|].
  destruct (Z.ltb_spec (m * 60) 0); [lia|].
  now rewrite Hos.
Qed.

(** A [retry] decorator without [minutes_between_retries] means 1 minute. *)
Lemma minutes_default (deco : decorator) (decorators : list decorator) :
  decorators_named "retry" decorators = deco :: nil ->
  dict_get (attributes deco) "minutes_between_retries" = None ->
  minutes_between_retries decorators = Return (Some 1%Z).
Proof.
  intros Hd Ha. unfold minutes_between_retries, dict_get_default.
  now rewrite Hd, Ha.
Qed.

(** Without a [retry] decorator there is no delay to format: a retry
    raises before it announces, sleeps or submits anything. *)
Lemma retry_backoff_without_policy ctx (n : Z) :
  n <> 0%Z ->
  retry_backoff ctx n None
  = ([], Raise (TypeError "%d format: a real number is required, not NoneType")).
Proof.
  intro Hn. unfold retry_backoff.
  destruct (Z.eqb_spec n 0) as [|_]; [contradiction|]. reflexivity.
Qed.

Lemma submit_starts_with_launch ctx step_name p :
  exists rest,
    events (submit_and_monitor ctx step_name p) = LaunchJob (request p) :: rest.
Proof.
  destruct (launch_job ctx (request p)) as [[]|e] eqn:Hl.
  - destruct (@submit_accepted ctx step_name p Hl) as (t & _ & E).
    cbv zeta in E. rewrite E. eexists. reflexivity.
  - destruct (is_Exception e) eqn:He.
    + rewrite (@submit_refused ctx step_name p e Hl He). eexists. reflexivity.
    + rewrite (@submit_interrupted ctx step_name p e Hl He).
      eexists. reflexivity.
Qed.

(** X13. A first attempt ([retry_count = 0]) goes to the submission without
    a notice or a pause: the submission is the first event of the run. *)
Lemma first_attempt_no_pause ctx step_name sha url opts kwargs p :
  result (prepare ctx step_name sha url opts kwargs) = Return p ->
  retry_count kwargs = 0%Z ->
  exists rest,
    events (step ctx step_name sha url opts kwargs)
    = LaunchJob (request p) :: rest.
Proof.
  intros Hp Hn.
  destruct (@step_after_prepare ctx step_name sha url opts kwargs p Hp)
    as [-> _].
  destruct (prepare_inv _ _ _ _ _ _ Hp)
    as (sv & v & m & env0 & _ & _ & _ & _ & _ & -> & _).
  rewrite Hn, retry_backoff_first_attempt.
  apply submit_starts_with_launch.
Qed.

(** X12. A retry ([retry_count <> 0]) of a step whose [retry] decorator
    gives [m] minutes, in a run that reaches the submission (the
    preparation returns: [time.sleep] took the delay), announces the
    pause, sleeps [m * 60] seconds and only then submits: these are the
    first three events of the run. *)
Lemma retry_pauses_before_submission ctx step_name sha url opts kwargs p m :
  result (prepare ctx step_name sha url opts kwargs) = Return p ->
  minutes_between_retries (graph ctx step_name) = Return (Some m) ->
  retry_count kwargs <> 0%Z ->
  exists rest,
    events (step ctx step_name sha url opts kwargs)
    = EchoAlways ("Sleeping " ++ string_of_Z m
                  ++ " minutes before the next AWS Batch retry") false
      :: Sleep (m * 60)
      :: LaunchJob (request p)
      :: rest.
Proof.
  intros Hp Hm Hn.
  destruct (@step_after_prepare ctx step_name sha url opts kwargs p Hp)
    as [-> _].
  destruct (prepare_inv _ _ _ _ _ _ Hp)
    as (sv & v & m' & env0 & _ & Hm' & _ & _ & Hr & -> & _).
  rewrite Hm in Hm'. inversion Hm'; subst m'.
  assert (Hb : retry_backoff ctx (retry_count kwargs) (Some m)
               = ([EchoAlways ("Sleeping " ++ string_of_Z m
                     ++ " minutes before the next AWS Batch retry") false;
                   Sleep (m * 60)],
                  Return tt)).
  { unfold retry_backoff, time_sleep in Hr |- *.
    destruct (Z.eqb_spec (retry_count kwargs) 0) as [|_]; [contradiction|].
    cbn -[Z.mul Z.abs Z.ltb PyTime_max_seconds string_of_Z String.append]
      in Hr |- *.
    destruct (PyTime_max_seconds <? Z.abs (m * 60))%Z; [discriminate Hr|].
    destruct (m * 60 <? 0)%Z; [discriminate Hr|].
    destruct (os_sleep ctx (m * 60)) as [[]|e']; [reflexivity|discriminate Hr]. }
  rewrite Hb.
  destruct (submit_starts_with_launch ctx step_name p) as (rest & ->).
  exists rest. reflexivity.
Qed.

(** C2, at the input where the operation departs from it: a first retry
    ([--retry-count 1]) of a step that carries [@catch] and no [@retry].
    The run raises [TypeError] from formatting the notice with [None]; it
    announces nothing, sleeps for no time and submits nothing. *)
Theorem retry_without_retry_decorator :
  step (example_context [catch_decorator] (Return tt) (Return tt) (Return tt))
    "start" "sha" "s3://pkg" example_options (example_kwargs 1 None)
  = ([], Raise (TypeError "%d format: a real number is required, not NoneType")).
Proof. vm_compute. reflexivity. Qed.

(** ** Runs that stop before the submission *)

Lemma bind_raise {A B} (m : action A) (k : A -> action B) (e : exn) :
  result m = Raise e -> bind m k = (events m, Raise e).
Proof. destruct m as [t r]. simpl. now intros ->. Qed.

Lemma step_failed_prepare ctx step_name sha url opts kwargs e :
  result (prepare ctx step_name sha url opts kwargs) = Raise e ->
  step ctx step_name sha url opts kwargs
  = (events (prepare ctx step_name sha url opts kwargs), Raise e).
Proof. intro H. unfold step. now apply bind_raise. Qed.

Lemma prepare_stops_at_minutes ctx step_name sha url opts kwargs e :
  minutes_between_retries (graph ctx step_name) = Raise e ->
  prepare ctx step_name sha url opts kwargs = ([], Raise e).
Proof.
  intro Hm. unfold prepare.
  destruct (encode_input_paths_returns (input_paths kwargs))
    as (sv & v & ->).
  now rewrite Hm.
Qed.

Lemma prepare_stops_at_env ctx step_name sha url opts kwargs m e :
  minutes_between_retries (graph ctx step_name) = Return m ->
  declared_env (graph ctx step_name) = Raise e ->
  prepare ctx step_name sha url opts kwargs = ([], Raise e).
Proof.
  intros Hm Hd. unfold prepare.
  destruct (encode_input_paths_returns (input_paths kwargs))
    as (sv & v & ->).
  now rewrite Hm, Hd.
Qed.

Lemma prepare_stops_at_merge ctx step_name sha url opts kwargs sv v m env0 e :
  encode_input_paths (input_paths kwargs) = Return (sv, v) ->
  minutes_between_retries (graph ctx step_name) = Return m ->
  declared_env (graph ctx step_name) = Return env0 ->
  merge_env env0 sv = Raise e ->
  prepare ctx step_name sha url opts kwargs = ([], Raise e).
Proof.
  intros He Hm Hd Hu. unfold prepare. rewrite He, Hm, Hd.
  cbn [lift bind fst snd]. now rewrite Hu.
Qed.

Lemma prepare_stops_at_backoff
    ctx step_name sha url opts kwargs sv v m env0 env t e :
  encode_input_paths (input_paths kwargs) = Return (sv, v) ->
  minutes_between_retries (graph ctx step_name) = Return m ->
  declared_env (graph ctx step_name) = Return env0 ->
  merge_env env0 sv = Return env ->
  retry_backoff ctx (retry_count kwargs) m = (t, Raise e) ->
  prepare ctx step_name sha url opts kwargs = (t, Raise e).
Proof.
  intros He Hm Hd Hu Hb. unfold prepare. rewrite He, Hm, Hd.
  cbn [lift bind fst snd retry_count set_input_paths]. rewrite Hu, Hb.
  reflexivity.
Qed.

(** X9. A run that fails before the submission submits nothing, waits for
    nothing and calls no metadata sync: it raises what the preparation
    raised, after the events of the preparation alone. *)
Theorem failed_preparation_submits_nothing
    ctx step_name sha url opts kwargs e :
  result (prepare ctx step_name sha url opts kwargs) = Raise e ->
  let run := step ctx step_name sha url opts kwargs in
  result run = Raise e /\
  events run = events (prepare ctx step_name sha url opts kwargs) /\
  count is_launch (events run) = 0 /\
  count is_wait (events run) = 0 /\
  count is_sync (events run) = 0.
Proof.
  intro H. cbv zeta. rewrite (step_failed_prepare _ _ _ _ _ _ H).
  cbn [result events fst snd].
  pose proof (prepare_output ctx step_name sha url opts kwargs) as H0.
  count_outputs H0. auto.
Qed.

(** X14. The delay of the [retry] decorator is converted with [int] on
    every run, a first attempt included: when the conversion raises (a
    value that is no number), the run raises that exception before it
    announces, sleeps or submits anything. *)
Theorem invalid_minutes_fails_every_attempt
    ctx step_name sha url opts kwargs deco rest e :
  decorators_named "retry" (graph ctx step_name) = deco :: rest ->
  py_int (dict_get_default (attributes deco) "minutes_between_retries"
            (PyInt 1)) = Raise e ->
  step ctx step_name sha url opts kwargs = ([], Raise e).
Proof.
  intros Hd Hi.
  assert (Hm : minutes_between_retries (graph ctx step_name) = Raise e).
  { unfold minutes_between_retries. now rewrite Hd, Hi. }
  rewrite (@step_failed_prepare ctx step_name sha url opts kwargs e);
    now rewrite (prepare_stops_at_minutes _ _ _ _ _ _ Hm).
Qed.

(** X15. A retry under a negative delay announces the pause and then
    fails in [time.sleep]: with [ValueError], or with [OverflowError] when
    the delay lies more than 9223372036 seconds below zero and does not
    convert. Nothing is submitted. *)
Theorem negative_minutes_never_submits
    ctx step_name sha url opts kwargs sv v env0 env m :
  encode_input_paths (input_paths kwargs) = Return (sv, v) ->
  minutes_between_retries (graph ctx step_name) = Return (Some m) ->
  declared_env (graph ctx step_name) = Return env0 ->
  merge_env env0 sv = Return env ->
  retry_count kwargs <> 0%Z ->
  (m < 0)%Z ->
  step ctx step_name sha url opts kwargs
  = ([EchoAlways ("Sleeping " ++ string_of_Z m
                  ++ " minutes before the next AWS Batch retry") false],
     Raise (if (m * 60 <? - PyTime_max_seconds)%Z
            then OverflowError "timestamp too large to convert to C _PyTime_t"
            else ValueError "sleep length must be non-negative")).
Proof.
  intros He Hm Hd Hu Hn Hneg.
  set (e := if (m * 60 <? - PyTime_max_seconds)%Z
            then OverflowError "timestamp too large to convert to C _PyTime_t"
            else ValueError "sleep length must be non-negative").
  assert (Hb : retry_backoff ctx (retry_count kwargs) (Some m)
               = ([EchoAlways ("Sleeping " ++ string_of_Z m
                     ++ " minutes before the next AWS Batch retry") false],
                  Raise e)).
  { unfold retry_backoff, time_sleep, e.
    destruct (Z.eqb_spec (retry_count kwargs) 0) as [|_]; [contradiction|].
    cbn -[Z.mul Z.abs Z.ltb Z.opp PyTime_max_seconds string_of_Z String.append].
    destruct (Z.ltb_spec PyTime_max_seconds (Z.abs (m * 60))),
      (Z.ltb_spec (m * 60) (- PyTime_max_seconds)); try lia;
      [reflexivity|].
    destruct (Z.ltb_spec (m * 60) 0); [reflexivity|lia]. }
  pose proof (prepare_stops_at_backoff ctx step_name sha url opts kwargs
                He Hm Hd Hu Hb) as Hp.
  rewrite (@step_failed_prepare ctx step_name sha url opts kwargs e);
    now rewrite Hp.
Qed.

(** X16. An [environment] decorator whose attributes have no ["vars"]
    makes the run raise [KeyError] before anything is announced or
    submitted. *)
Theorem environment_without_vars_raises
    ctx step_name sha url opts kwargs deco rest m :
  decorators_named "environment" (graph ctx step_name) = deco :: rest ->
  dict_get (attributes deco) "vars" = None ->
  minutes_between_retries (graph ctx step_name) = Return m ->
  step ctx step_name sha url opts kwargs = ([], Raise (KeyError "vars")).
Proof.
  intros Hd Hv Hm.
  assert (He : declared_env (graph ctx step_name) = Raise (KeyError "vars")).
  { unfold declared_env. now rewrite Hd, Hv. }
  rewrite (@step_failed_prepare ctx step_name sha url opts kwargs
             (KeyError "vars"));
    now rewrite (prepare_stops_at_env _ _ _ _ _ _ Hm He).
Qed.

(** X17. Declared variables that are not a dict are rejected only when
    there are chunks to add: with a non-empty input-paths value the run
    raises [AttributeError] from [env.update] before it submits. *)
Theorem env_not_dict_with_chunks_raises
    ctx step_name sha url opts kwargs s m env0 :
  input_paths kwargs = Some s ->
  s <> "" ->
  minutes_between_retries (graph ctx step_name) = Return m ->
  declared_env (graph ctx step_name) = Return env0 ->
  (forall d, env0 <> PyDict d) ->
  step ctx step_name sha url opts kwargs
  = ([], Raise (AttributeError "object has no attribute 'update'")).
Proof.
  intros Hi Hs Hm Hd Hn.
  pose proof (encode_input_paths_nonempty Hs) as He. rewrite <- Hi in He.
  assert (Hu : merge_env env0
                 (Some (map (fun k => (input_paths_key k,
                           String.substring (k * max_size) max_size s))
                          (seq 0 (ceil_div (String.length s) max_size))))
               = Raise (AttributeError "object has no attribute 'update'")).
  { destruct (ceil_div_bounds max_size_pos (nonempty_length Hs))
      as (_ & _ & Hpos).
    destruct (ceil_div (String.length s) max_size) as [|n]; [lia|].
    unfold merge_env. cbn [seq map split_vars_truthy].
    destruct env0; try reflexivity. now destruct (Hn d). }
  pose proof (prepare_stops_at_merge ctx step_name sha url opts kwargs
                He Hm Hd Hu) as Hp.
  rewrite (@step_failed_prepare ctx step_name sha url opts kwargs
             (AttributeError "object has no attribute 'update'"));
    now rewrite Hp.
Qed.

(** ** What is handed to the backend *)

(** The log locations, the attempt and the command line of a prepared
    request. *)
Lemma prepare_inv_request ctx step_name sha url opts kwargs p :
  result (prepare ctx step_name sha url opts kwargs) = Return p ->
  stdout_location p
  = get_log_location ctx (run_id kwargs) step_name (task_id kwargs)
      (retry_count kwargs) TASK_LOG_SOURCE "stdout" /\
  stderr_location p
  = get_log_location ctx (run_id kwargs) step_name (task_id kwargs)
      (retry_count kwargs) TASK_LOG_SOURCE "stderr" /\
  job_attempt (request p) = string_of_Z (retry_count kwargs) /\
  job_step_cli (request p)
  = (if use_r ctx then r_entrypoint ctx
     else
       (match executable opts with
        | Some e => e
        | None => environment_executable ctx step_name
        end) ++ " -u " ++ argv0_basename ctx)
    ++ " " ++ py_join " " (top_level_options ctx)
    ++ " step " ++ step_name ++ " "
    ++ py_join " " (dict_to_cli_options ctx (final_kwargs p)).
Proof.
  unfold prepare.
  destruct (encode_input_paths (input_paths kwargs)) as [[sv v]|e1];
    [|discriminate].
  destruct (minutes_between_retries (graph ctx step_name)) as [minutes|e2];
    [|discriminate].
  destruct (declared_env (graph ctx step_name)) as [env0|e3]; [|discriminate].
  cbn [lift bind fst snd retry_count set_input_paths].
  destruct (merge_env env0 sv) as [env|e4]; [|discriminate].
  destruct (retry_backoff ctx (retry_count kwargs) minutes) as [t [[]|e5]];
    [|discriminate].
  cbn -[String.append string_of_Z py_join]. intro H. injection H as <-.
  cbn -[String.append string_of_Z py_join]. repeat split.
Qed.

Lemma set_input_paths_twice kwargs a b :
  set_input_paths (set_input_paths kwargs a) b = set_input_paths kwargs b.
Proof. reflexivity. Qed.

(** X20. The command line does not carry the input paths: two runs that
    differ only in their non-empty input-paths values, cut into the same
    number of chunks, pass on the same options and submit the same
    [step_cli]. *)
Theorem step_cli_independent_of_contents
    ctx step_name sha url opts kwargs s1 s2 p1 p2 :
  s1 <> "" ->
  s2 <> "" ->
  ceil_div (String.length s1) max_size = ceil_div (String.length s2) max_size ->
  result (prepare ctx step_name sha url opts
            (set_input_paths kwargs (Some s1))) = Return p1 ->
  result (prepare ctx step_name sha url opts
            (set_input_paths kwargs (Some s2))) = Return p2 ->
  final_kwargs p1 = final_kwargs p2 /\
  job_step_cli (request p1) = job_step_cli (request p2).
Proof.
  intros H1 H2 Hm Hp1 Hp2.
  assert (Hk : final_kwargs p1 = final_kwargs p2).
  { destruct (prepare_inv _ _ _ _ _ _ Hp1)
      as (sv1 & v1 & _ & _ & He1 & _ & _ & _ & _ & _ & ->).
    destruct (prepare_inv _ _ _ _ _ _ Hp2)
      as (sv2 & v2 & _ & _ & He2 & _ & _ & _ & _ & _ & ->).
    cbn [input_paths set_input_paths] in He1, He2.
    rewrite (encode_input_paths_nonempty H1) in He1.
    rewrite (encode_input_paths_nonempty H2) in He2.
    rewrite Hm in He1. rewrite !set_input_paths_twice. congruence. }
  split; [exact Hk|].
  destruct (prepare_inv_request _ _ _ _ _ _ Hp1) as (_ & _ & _ & ->).
  destruct (prepare_inv_request _ _ _ _ _ _ Hp2) as (_ & _ & _ & ->).
  now rewrite Hk.
Qed.

Lemma dict_get_in {V} (d : dict V) (k : string) (v : V) :
  NoDup (dict_keys d) -> In (k, v) d -> dict_get d k = Some v.
Proof.
  induction d as [|[k0 v0] d IH]; simpl; intros Hnd Hin; [contradiction|].
  inversion Hnd as [|? ? Hk0 Hd]; subst.
  destruct Hin as [E|Hin].
  - inversion E; subst. now rewrite String.eqb_refl.
  - destruct (String.eqb_spec k0 k) as [->|_]; [|now apply IH].
    exfalso. apply Hk0. unfold dict_keys.
    change k with (fst (k, v)). now apply in_map.
Qed.

(** Reading the keys of [other] back after [d.update(other)] gives the
    values of [other], in its order. *)
Lemma dict_update_read_back (d other : dict string) :
  NoDup (dict_keys other) ->
  map (fun k => dict_get_default (dict_update d other) k "") (dict_keys other)
  = dict_values other.
Proof.
  intro Hnd. unfold dict_keys, dict_values. rewrite map_map.
  apply map_ext_in. intros [k v] Hin. cbn [fst snd].
  unfold dict_get_default.
  now rewrite (@dict_get_update _ other d k Hnd), (@dict_get_in _ other k v Hnd Hin).
Qed.

Lemma dict_update_empty {V} (d : dict V) :
  NoDup (dict_keys d) -> dict_update [] d = d.
Proof.
  intro Hnd. unfold dict_update.
  rewrite (@fold_dict_set_fresh _ _ fst snd d []).
  - cbn [app]. rewrite <- (map_id d) at 2. apply map_ext. now intros [k v].
  - exact Hnd.
  - intros x _ [].
Qed.

(** X18. The input paths can be read back from what is submitted: taking,
    in the order of the keys the expression names, the values of the chunk
    variables in the submitted environment and joining them gives the
    original value, also when the declared environment had a variable of
    the same name as a chunk. *)
Theorem input_paths_recovered_from_env
    ctx step_name sha url opts kwargs p s declared :
  result (prepare ctx step_name sha url opts kwargs) = Return p ->
  input_paths kwargs = Some s ->
  declared_env (graph ctx step_name) = Return (PyDict declared) ->
  exists split_vars env,
    job_env (request p) = PyDict env /\
    (s <> "" ->
     input_paths (final_kwargs p)
     = Some (reconstruction (chunks_of split_vars))) /\
    py_join ""
      (map (fun key => dict_get_default env key "")
         (dict_keys (chunks_of split_vars))) = s.
Proof.
  intros Hp Hi Hd.
  destruct (prepare_inv _ _ _ _ _ _ Hp)
    as (sv & v & m & env0 & He & _ & Hd' & Hu & _ & _ & Hk).
  rewrite Hd in Hd'. inversion Hd'; subst env0. rewrite Hi in He.
  pose proof (encode_input_paths_nodup _ He) as Hnd.
  destruct (String.eqb_spec s "") as [->|Hs].
  - assert (E : encode_input_paths (Some "") = Return (None, Some ""))
      by reflexivity.
    rewrite E in He. injection He as <- <-. exists None, declared.
    unfold merge_env in Hu. cbn in Hu. injection Hu as Hu'.
    split; [now symmetry|]. split; [congruence|reflexivity].
  - pose proof (encode_input_paths_nonempty Hs) as He'.
    destruct (ceil_div_bounds max_size_pos (nonempty_length Hs))
      as (_ & _ & Hpos).
    pose proof (chunks_concat s max_size_pos) as Hcat.
    set (n := ceil_div (String.length s) max_size) in He', Hpos, Hcat.
    set (d := map (fun k => (input_paths_key k,
                     String.substring (k * max_size) max_size s))
                (seq 0 n)) in He'.
    rewrite He in He'. injection He' as -> ->.
    assert (Ht : split_vars_truthy (Some d) = true).
    { unfold d. destruct n; [lia|]. reflexivity. }
    unfold merge_env in Hu. rewrite Ht in Hu.
    cbn [env_update chunks_of] in Hu. injection Hu as Hu'.
    exists (Some d), (dict_update declared d).
    cbn [chunks_of] in Hnd |- *.
    split; [now symmetry|]. split.
    + intros _. rewrite Hk. cbn [input_paths set_input_paths].
      unfold reconstruction, d, dict_keys. now rewrite !map_map.
    + rewrite (@dict_update_read_back declared d Hnd).
      unfold d, dict_values. rewrite map_map. exact Hcat.
Qed.

(** X23. A step that declares no environment submits exactly the chunk
    mapping as its environment (the empty mapping when there are no input
    paths). *)
Theorem no_environment_env_is_chunks ctx step_name sha url opts kwargs p :
  decorators_named "environment" (graph ctx step_name) = [] ->
  result (prepare ctx step_name sha url opts kwargs) = Return p ->
  exists split_vars value,
    encode_input_paths (input_paths kwargs) = Return (split_vars, value) /\
    job_env (request p) = PyDict (chunks_of split_vars).
Proof.
  intros Hn Hp.
  destruct (prepare_inv _ _ _ _ _ _ Hp)
    as (sv & v & m & env0 & He & _ & Hd & Hu & _).
  unfold declared_env in Hd. rewrite Hn in Hd. inversion Hd; subst env0.
  pose proof (encode_input_paths_nodup _ He) as Hnd.
  exists sv, v. split; [exact He|].
  unfold merge_env in Hu. destruct (split_vars_truthy sv) eqn:Ht.
  - cbn [env_update] in Hu. rewrite (@dict_update_empty _ (chunks_of sv) Hnd) in Hu. congruence.
  - inversion Hu as [Hu'].
    now destruct sv as [[|? ?]|].
Qed.

(** ** More on submission and monitoring *)

(** X7. When the job is taken, the wait returns and the sync returns, the
    run returns normally: it has submitted once and waited once, printed
    no traceback, and the sync was the last thing it did. *)
Theorem success_returns ctx step_name sha url opts kwargs p :
  result (prepare ctx step_name sha url opts kwargs) = Return p ->
  launch_job ctx (request p) = Return tt ->
  snd (wait ctx (stdout_location p) (stderr_location p)) = Return tt ->
  sync_local_metadata_from_datastore ctx
    (get_task_datastore ctx step_name kwargs) = Return tt ->
  let run := step ctx step_name sha url opts kwargs in
  result run = Return tt /\
  (exists t,
      events run
      = (t ++ [SyncLocalMetadata (get_task_datastore ctx step_name kwargs)])%list) /\
  count is_launch (events run) = 1 /\
  count is_wait (events run) = 1 /\
  count is_traceback (events run) = 0.
Proof.
  intros Hp Hl Hw Hs. cbv zeta.
  destruct (@accepted_run_summary ctx step_name sha url opts kwargs p Hp Hl)
    as (Cl & Cw & _ & Ct & (t & Ht) & Hres).
  rewrite Hw in Ct, Ht, Hres. rewrite Hs in Hres.
  repeat split; try assumption. now exists t.
Qed.

(** X8. Nothing guards the metadata sync: on each of the ways out of a run
    that reached the submission, an exception raised by the sync is what
    the run raises, in place of the exit with
    [METAFLOW_EXIT_DISALLOW_RETRY], of the failure of the wait, or of the
    normal return. *)
Theorem sync_failure_replaces_result ctx step_name sha url opts kwargs p e :
  result (prepare ctx step_name sha url opts kwargs) = Return p ->
  exit_path ctx p ->
  sync_local_metadata_from_datastore ctx
    (get_task_datastore ctx step_name kwargs) = Raise e ->
  result (step ctx step_name sha url opts kwargs) = Raise e.
Proof.
  intros Hp Hpath Hs.
  destruct Hpath as [e0 Hl He | Hl Hw | msg Hl Hw | e0 Hl Hw Hk].
  - destruct (@refused_run ctx step_name sha url opts kwargs p e0 Hp Hl He)
      as [_ ->].
    now rewrite Hs.
  - destruct (@accepted_run_summary ctx step_name sha url opts kwargs p Hp Hl)
      as (_ & _ & _ & _ & _ & ->).
    now rewrite Hs.
  - destruct (@accepted_run_summary ctx step_name sha url opts kwargs p Hp Hl)
      as (_ & _ & _ & _ & _ & ->).
    now rewrite Hs.
  - destruct (@accepted_run_summary ctx step_name sha url opts kwargs p Hp Hl)
      as (_ & _ & _ & _ & _ & ->).
    now rewrite Hs.
Qed.

(** X10. The run waits exactly when the job was taken, and then at once:
    the wait follows the submission directly and tails the standard output
    and standard error logs of this very attempt; when [launch_job] raises,
    whatever it raises, the run never waits. *)
Theorem wait_follows_submission ctx step_name sha url opts kwargs p :
  result (prepare ctx step_name sha url opts kwargs) = Return p ->
  let run := step ctx step_name sha url opts kwargs in
  let log_location :=
    get_log_location ctx (run_id kwargs) step_name (task_id kwargs)
      (retry_count kwargs) TASK_LOG_SOURCE in
  (launch_job ctx (request p) = Return tt ->
   count is_wait (events run) = 1 /\
   exists rest,
     events run
     = (events (prepare ctx step_name sha url opts kwargs)
        ++ LaunchJob (request p)
        :: Wait (log_location "stdout") (log_location "stderr")
        :: rest)%list) /\
  (forall e,
      launch_job ctx (request p) = Raise e ->
      count is_wait (events run) = 0).
Proof.
  intro Hp. cbv zeta.
  destruct (prepare_inv_request _ _ _ _ _ _ Hp) as (Hso & Hse & _).
  split.
  - intro Hl.
    destruct (@accepted_run_summary ctx step_name sha url opts kwargs p Hp Hl)
      as (_ & Cw & _).
    split; [exact Cw|].
    destruct (@accepted_run ctx step_name sha url opts kwargs p Hp Hl)
      as (t & _ & -> & _).
    rewrite <- Hso, <- Hse. eexists. reflexivity.
  - intros e Hl.
    destruct (is_Exception e) eqn:He.
    + apply (@refused_run_counts ctx step_name sha url opts kwargs p e
               Hp Hl He).
    + destruct (@step_after_prepare ctx step_name sha url opts kwargs p Hp)
        as [-> _].
      rewrite (@submit_interrupted ctx step_name p e Hl He).
      pose proof (prepare_output ctx step_name sha url opts kwargs) as H0.
      rewrite count_app. count_outputs H0. reflexivity.
Qed.

(** X11. The wait relays the log as it comes: every call of the callback
    gives one [echo_always], in the order of the calls; the message echoed
    is the line received after [util.to_unicode], with the batch id in
    square brackets and a space before it when a non-empty id was given;
    [err] is set only for a line whose stream is the [sys.stderr] object (a
    line without a stream, or with a stream name, is echoed with
    [err = False]); and the wait ends as the backend's wait ended. *)
Theorem wait_relays_log_in_order ctx so se :
  events (batch_wait ctx so se)
  = Wait so se
    :: map (fun c =>
              EchoAlways
                match echo_batch_id c with
                | Some b =>
                    if str_truthy b
                    then "[" ++ b ++ "] " ++ to_unicode (echo_msg c)
                    else to_unicode (echo_msg c)
                | None => to_unicode (echo_msg c)
                end
                match echo_stream c with
                | Some SysStderr => true
                | _ => false
                end)
         (fst (wait ctx so se)) /\
  result (batch_wait ctx so se) = snd (wait ctx so se).
Proof.
  unfold batch_wait. destruct (wait ctx so se) as [calls r]. cbn [fst snd].
  set (line := fun c =>
                 EchoAlways
                   match echo_batch_id c with
                   | Some b =>
                       if str_truthy b
                       then "[" ++ b ++ "] " ++ to_unicode (echo_msg c)
                       else to_unicode (echo_msg c)
                   | None => to_unicode (echo_msg c)
                   end
                   match echo_stream c with
                   | Some SysStderr => true
                   | _ => false
                   end).
  assert (H : for_each echo calls = (map line calls, Return tt)).
  { induction calls as [|c calls IH].
    - reflexivity.
    - change (for_each echo (c :: calls))
        with (bind (echo c) (fun _ => for_each echo calls)).
      rewrite IH. unfold echo, emit, bind, line. cbn [app map].
      destruct (echo_stream c) as [[|]|]; reflexivity. }
  rewrite H. unfold emit, lift, bind. cbn [app].
  now rewrite List.app_nil_r.
Qed.

End Step.

(** * Listing and terminating jobs *)

Section ExecuteCmd.

Variable get_username : option string.
Variable get_latest_run_id : string -> outcome (option string).

(** Every call of [_execute_cmd] either raises without calling [func], or
    calls [func] once, on one query, and returns what it returns. *)
Lemma execute_cmd_cases flow_name run_id user my_runs :
  (exists e,
      forall func,
        _execute_cmd get_username get_latest_run_id func
          flow_name run_id user my_runs = Raise e) \/
  (exists q,
      (forall func,
          _execute_cmd get_username get_latest_run_id func
            flow_name run_id user my_runs = func q) /\
      query_flow_name q = flow_name /\
      query_user q = (if my_runs then get_username else user) /\
      (opt_truthy run_id = true -> query_run_id q = run_id) /\
      (query_run_id q = None -> opt_truthy (query_user q) = true)).
Proof.
  unfold _execute_cmd.
  destruct (opt_truthy user) eqn:Hu, my_runs,
    (opt_truthy run_id) eqn:Hr, (opt_truthy get_username) eqn:Hg,
    (get_latest_run_id flow_name) as [[r|]|e];
    simpl; rewrite ?Hu, ?Hg; simpl;
    first
      [ left; eexists; intro; reflexivity
      | right; eexists; split; [intro; reflexivity|]; simpl;
        repeat split; auto; try discriminate;
        intros ->; discriminate Hr ].
Qed.

(** X1. [--my-runs] together with a user or with a run id is refused: the
    call raises [CommandException] whatever [func], the user name and the
    latest run are, so [func] is not called. *)
Theorem execute_cmd_my_runs_exclusive func flow_name run_id user :
  opt_truthy user || opt_truthy run_id = true ->
  exists msg,
    _execute_cmd get_username get_latest_run_id func
      flow_name run_id user true = Raise (CommandException msg) /\
    (opt_truthy user = true ->
     msg = "--user and --my-runs are mutually exclusive.") /\
    (opt_truthy user = false ->
     msg = "--run_id and --my-runs are mutually exclusive.").
Proof.
  intro H. unfold _execute_cmd.
  destruct (opt_truthy user); simpl in *.
  - eexists. split; [reflexivity|]. split; [reflexivity|discriminate].
  - rewrite H. simpl.
    eexists. split; [reflexivity|]. split; [discriminate|reflexivity].
Qed.

(** X2. With a run id and without [--my-runs], [func] is called on the
    flow, that run id and the user as given (a user or none), and its
    result is the result; the latest run is not looked up. *)
Theorem execute_cmd_run_id_given func flow_name run_id user :
  opt_truthy run_id = true ->
  _execute_cmd get_username get_latest_run_id func
    flow_name run_id user false
  = func {| query_flow_name := flow_name;
            query_run_id := run_id;
            query_user := user |}.
Proof.
  intro Hr. unfold _execute_cmd. rewrite Hr.
  destruct (opt_truthy user); reflexivity.
Qed.

(** X3. Without a run id, a user (named with [--user], or the caller's own
    name under [--my-runs]) selects all the runs of that user: [func] is
    called with the run id as it came ([None]) and that user, and the
    latest run is not looked up. *)
Theorem execute_cmd_user_runs func flow_name run_id user my_runs :
  opt_truthy run_id = false ->
  (my_runs = true -> opt_truthy user = false) ->
  opt_truthy (if my_runs then get_username else user) = true ->
  _execute_cmd get_username get_latest_run_id func
    flow_name run_id user my_runs
  = func {| query_flow_name := flow_name;
            query_run_id := run_id;
            query_user := if my_runs then get_username else user |}.
Proof.
  intros Hr Hx Hw. unfold _execute_cmd. rewrite Hr.
  destruct my_runs.
  - rewrite (Hx eq_refl). simpl. now rewrite Hw.
  - rewrite Hw. reflexivity.
Qed.

(** X4. Without a run id and without a user, the flow's latest run is
    used: [func] is called on it; when [util.get_latest_run_id] finds none
    the call raises [CommandException] and [func] is not called; what the
    lookup raises is raised. *)
Theorem execute_cmd_latest_run func flow_name run_id user my_runs :
  opt_truthy run_id = false ->
  (my_runs = true -> opt_truthy user = false) ->
  opt_truthy (if my_runs then get_username else user) = false ->
  _execute_cmd get_username get_latest_run_id func
    flow_name run_id user my_runs
  = match get_latest_run_id flow_name with
    | Return (Some r) =>
        func {| query_flow_name := flow_name;
                query_run_id := Some r;
                query_user := if my_runs then get_username else user |}
    | Return None =>
        Raise (CommandException
                 "A previous run id was not found. Specify --run-id.")
    | Raise e => Raise e
    end.
Proof.
  intros Hr Hx Hw. unfold _execute_cmd. rewrite Hr.
  destruct my_runs.
  - rewrite (Hx eq_refl). simpl. rewrite Hw. simpl.
    destruct (get_latest_run_id flow_name) as [[r|]|e]; reflexivity.
  - rewrite Hw. simpl.
    destruct (get_latest_run_id flow_name) as [[r|]|e]; reflexivity.
Qed.

(** X5. [func] is never called without a scope: whatever the options are,
    the call either raises without calling [func], or calls it exactly
    once, on this flow, and then never with both no run id and no user. *)
Theorem execute_cmd_never_unscoped flow_name run_id user my_runs :
  (exists e,
      forall func,
        _execute_cmd get_username get_latest_run_id func
          flow_name run_id user my_runs = Raise e) \/
  (exists q,
      (forall func,
          _execute_cmd get_username get_latest_run_id func
            flow_name run_id user my_runs = func q) /\
      query_flow_name q = flow_name /\
      (query_run_id q = None -> opt_truthy (query_user q) = true)).
Proof.
  destruct (execute_cmd_cases flow_name run_id user my_runs)
    as [H | (q & Hq & Hf & _ & _ & Hs)].
  - now left.
  - right. exists q. auto.
Qed.

(** X6. [batch list] and [batch kill] select the same jobs: given the same
    options, either both raise the same exception before they reach the
    backend, or one lists and the other terminates the jobs of one and the
    same query. *)
Theorem list_and_kill_same_jobs client flow_name run_id user my_runs :
  (exists e,
      batch.list get_username get_latest_run_id client
        flow_name run_id user my_runs = Raise e /\
      batch.kill get_username get_latest_run_id client
        flow_name run_id user my_runs = Raise e) \/
  (exists q,
      batch.list get_username get_latest_run_id client
        flow_name run_id user my_runs = list_jobs client q /\
      batch.kill get_username get_latest_run_id client
        flow_name run_id user my_runs = kill_jobs client q).
Proof.
  unfold batch.list, batch.kill.
  destruct (execute_cmd_cases flow_name run_id user my_runs)
    as [(e & H) | (q & Hq & _)].
  - left. exists e. split; apply H.
  - right. exists q. split; apply Hq.
Qed.

End ExecuteCmd.

(** * The theorems at sample runs

    The module's constants are instantiated with Metaflow's values: exit
    code 202 and log source ["task"]. *)

(** C3 at a value of 45000 characters. *)
Lemma encode_input_paths_chunks_witness :
  exists split_vars,
    encode_input_paths (Some example_long_paths)
    = Return (Some split_vars,
              Some "${METAFLOW_INPUT_PATHS_0}${METAFLOW_INPUT_PATHS_1}") /\
    map (fun v => N.of_nat (String.length v)) (dict_values split_vars)
    = [30720%N; 14280%N] /\
    py_join "" (dict_values split_vars) = example_long_paths.
Proof.
  destruct (encode_input_paths_chunks example_long_paths)
    as (sv & expr & Henc & _ & _ & _ & _ & Hcat & Hne & H45).
  assert (Hlen : String.length example_long_paths = 45 * 1000)
    by apply repeat_char_length.
  assert (Hs : example_long_paths <> "").
  { intro H. rewrite H in Hlen. cbn [String.length] in Hlen. lia. }
  destruct H45 as [Hsizes ->]; [cbv zeta; rewrite Hlen; lia|].
  destruct (Hne Hs) as [E _].
  destruct sv as [d|]; [|discriminate E].
  exists d. split; [exact Henc|]. split; [exact Hsizes | exact Hcat].
Defined.

(** C3 as worded, in bytes, fails: a value of 45000 bytes (22500
    characters of two bytes each) is not cut into chunks of 30720 and 14280
    bytes; it gives a single chunk, of 45000 bytes, above the ceiling. *)
Lemma encode_input_paths_chunks_bytes_counterexample :
  utf8_size example_accented_paths = 45000%N /\
  exists chunk,
    encode_input_paths (Some example_accented_paths)
    = Return (Some [("METAFLOW_INPUT_PATHS_0", chunk)],
              Some "${METAFLOW_INPUT_PATHS_0}") /\
    utf8_size chunk = 45000%N /\
    (30720 < utf8_size chunk)%N.
Proof.
  assert (Hb : utf8_size example_accented_paths = 45000%N).
  { unfold example_accented_paths. rewrite utf8_size_repeat_char.
    change (if (nat_of_ascii "233" <? 128)%nat then 1%N else 2%N) with 2%N.
    lia. }
  assert (Hlen : String.length example_accented_paths = 225 * 100)
    by apply repeat_char_length.
  split; [exact Hb|]. exists example_accented_paths. split.
  - apply encode_input_paths_short.
    + intro H. rewrite H in Hlen. cbn [String.length] in Hlen. lia.
    + rewrite Hlen. unfold max_size. lia.
  - rewrite Hb. split; [reflexivity|lia].
Qed.



(** C7 as worded fails when the sync raises: the failure of the wait is
    then not what the run raises. *)
Lemma other_wait_failure_propagates_counterexample :
  let ctx :=
    example_context [] (Return tt)
      (Raise (OtherError "BatchException" "task crashed"))
      (Raise (OtherError "S3Exception" "timed out")) in
  let run :=
    step 202 "task" example_int_of_str (fun s => s) ctx
      "start" "sha" "s3://pkg" example_options (example_kwargs 0 None) in
  count is_sync (events run) = 1 /\
  result run = Raise (OtherError "S3Exception" "timed out") /\
  result run <> Raise (OtherError "BatchException" "task crashed").
Proof.
  cbv zeta. vm_compute. repeat split. intro H. discriminate H.
Qed.


(** C1 at a run whose log callback fails while the job is being watched. *)
Lemma sync_exactly_once_witness :
  let ctx :=
    example_context [retry_decorator (PyStr "2")] (Return tt)
      (Raise (OtherError "BrokenPipeError" "echo failed")) (Return tt) in
  let kwargs := example_kwargs 1 (Some "s3://in/a,s3://in/b") in
  let run :=
    step 202 "task" example_int_of_str (fun s => s) ctx
      "start" "sha" "s3://pkg" example_options kwargs in
  count is_sync (events run) = 1 /\
  exists t,
    events run
    = (t ++ [SyncLocalMetadata (get_task_datastore ctx "start" kwargs)])%list.
Proof.
  refine (@sync_exactly_once 202 "task" example_int_of_str (fun s => s)
            _ "start" "sha" "s3://pkg" example_options _ _ _ _).
  - vm_compute. reflexivity.
  - eapply OtherFailure; vm_compute; reflexivity.
Defined.



(** C7 at a run interrupted from the keyboard while it waits. *)
Lemma other_wait_failure_propagates_witness :
  let ctx :=
    example_context [] (Return tt) (Raise KeyboardInterrupt) (Return tt) in
  let kwargs := example_kwargs 0 None in
  let run :=
    step 202 "task" example_int_of_str (fun s => s) ctx
      "start" "sha" "s3://pkg" example_options kwargs in
  result run = Raise KeyboardInterrupt /\
  (exists t,
      events run
      = (t ++ [SyncLocalMetadata (get_task_datastore ctx "start" kwargs)])%list) /\
  count is_sync (events run) = 1 /\
  count is_traceback (events run) = 0.
Proof.
  cbv zeta.
  eapply (@other_wait_failure_propagates 202 "task" example_int_of_str
            (fun s => s)
            (example_context [] (Return tt) (Raise KeyboardInterrupt)
               (Return tt))
            "start" "sha" "s3://pkg" example_options (example_kwargs 0 None));
    vm_compute; reflexivity.
Defined.


(** C6 at a step that declares two variables, one of them under the name
    of the first chunk. *)
Lemma declared_env_merged_witness :
  let declared := [("A", "1"); ("METAFLOW_INPUT_PATHS_0", "stale")] in
  let ctx :=
    example_context [environment_decorator declared] (Return tt) (Return tt)
      (Return tt) in
  let kwargs := example_kwargs 0 (Some "17/start/3") in
  let run :=
    step 202 "task" example_int_of_str (fun s => s) ctx
      "start" "sha" "s3://pkg" example_options kwargs in
  exists split_vars value env,
    encode_input_paths (input_paths kwargs) = Return (split_vars, value) /\
    count is_launch (events run) = 1 /\
    (forall req, In (LaunchJob req) (events run) -> job_env req = PyDict env) /\
    (forall k, In k (dict_keys declared) -> In k (dict_keys env)) /\
    (forall k v,
        dict_get (chunks_of split_vars) k = Some v -> dict_get env k = Some v) /\
    (forall k,
        dict_get (chunks_of split_vars) k = None ->
        dict_get env k = dict_get declared k).
Proof.
  refine (@declared_env_merged 202 "task" example_int_of_str (fun s => s)
            _ "start" "sha" "s3://pkg" example_options _ _ _ _ _);
    vm_compute; reflexivity.
Defined.

(** C8 at a run that is given the empty string as its input paths. *)
Lemma empty_input_paths_not_encoded_witness :
  let ctx := example_context [] (Return tt) (Return tt) (Return tt) in
  let kwargs := example_kwargs 0 (Some "") in
  exists split_vars,
    encode_input_paths (input_paths kwargs)
    = Return (split_vars, input_paths kwargs) /\
    chunks_of split_vars = [] /\
    forall p,
      result (prepare "task" example_int_of_str ctx "start" "sha" "s3://pkg"
                example_options kwargs) = Return p ->
      final_kwargs p = kwargs /\
      declared_env (graph ctx "start") = Return (job_env (request p)).
Proof.
  refine (@empty_input_paths_not_encoded "task" example_int_of_str
            _ "start" "sha" "s3://pkg" example_options _ _).
  right. reflexivity.
Defined.

(** X1 at [--user bob --my-runs]. *)
Lemma execute_cmd_my_runs_exclusive_witness :
  exists msg,
    _execute_cmd (Some "alice") example_latest_run_id (kill_jobs example_client)
      "HelloFlow" None (Some "bob") true = Raise (CommandException msg) /\
    (opt_truthy (Some "bob") = true ->
     msg = "--user and --my-runs are mutually exclusive.") /\
    (opt_truthy (Some "bob") = false ->
     msg = "--run_id and --my-runs are mutually exclusive.").
Proof.
  refine (@execute_cmd_my_runs_exclusive (Some "alice") example_latest_run_id
            (kill_jobs example_client) "HelloFlow" None (Some "bob") _).
  reflexivity.
Defined.

(** X2 at [--run-id 17]. *)
Lemma execute_cmd_run_id_given_witness :
  _execute_cmd (Some "alice") example_latest_run_id (kill_jobs example_client)
    "HelloFlow" (Some "17") None false
  = kill_jobs example_client
      {| query_flow_name := "HelloFlow";
         query_run_id := Some "17";
         query_user := None |}.
Proof.
  refine (@execute_cmd_run_id_given (Some "alice") example_latest_run_id
            (kill_jobs example_client) "HelloFlow" (Some "17") None _).
  reflexivity.
Defined.

(** X3 at [--my-runs] for the user [alice]. *)
Lemma execute_cmd_user_runs_witness :
  _execute_cmd (Some "alice") example_latest_run_id (list_jobs example_client)
    "HelloFlow" None None true
  = list_jobs example_client
      {| query_flow_name := "HelloFlow";
         query_run_id := None;
         query_user := Some "alice" |}.
Proof.
  refine (@execute_cmd_user_runs (Some "alice") example_latest_run_id
            (list_jobs example_client) "HelloFlow" None None true _ _ _);
    reflexivity.
Defined.

(** X4 at a call without options. *)
Lemma execute_cmd_latest_run_witness :
  _execute_cmd (Some "alice") example_latest_run_id (list_jobs example_client)
    "HelloFlow" None None false
  = list_jobs example_client
      {| query_flow_name := "HelloFlow";
         query_run_id := Some "1685";
         query_user := None |}.
Proof.
  refine (@execute_cmd_latest_run (Some "alice") example_latest_run_id
            (list_jobs example_client) "HelloFlow" None None false _ _ _);
    first [reflexivity | discriminate].
Defined.

(** X7 at a first attempt that runs to its end. *)
Lemma success_returns_witness :
  let ctx := example_context [] (Return tt) (Return tt) (Return tt) in
  let kwargs := example_kwargs 0 (Some "17/start/3") in
  let run :=
    step 202 "task" example_int_of_str (fun s => s) ctx
      "end" "sha" "s3://pkg" example_options kwargs in
  result run = Return tt /\
  (exists t,
      events run
      = (t ++ [SyncLocalMetadata (get_task_datastore ctx "end" kwargs)])%list) /\
  count is_launch (events run) = 1 /\
  count is_wait (events run) = 1 /\
  count is_traceback (events run) = 0.
Proof.
  refine (@success_returns 202 "task" example_int_of_str (fun s => s)
            _ "end" "sha" "s3://pkg" example_options _ _ _ _ _ _);
    vm_compute; reflexivity.
Defined.

(** X8 at a killed job whose metadata cannot be read back. *)
Lemma sync_failure_replaces_result_witness :
  result
    (step 202 "task" example_int_of_str (fun s => s)
       (example_context [] (Return tt)
          (Raise (BatchKilledException "Task killed."))
          (Raise (OtherError "S3Exception" "timed out")))
       "start" "sha" "s3://pkg" example_options (example_kwargs 0 None))
  = Raise (OtherError "S3Exception" "timed out").
Proof.
  refine (@sync_failure_replaces_result 202 "task" example_int_of_str
            (fun s => s) _ "start" "sha" "s3://pkg" example_options _ _ _
            _ _ _).
  - vm_compute. reflexivity.
  - eapply Killed; vm_compute; reflexivity.
  - reflexivity.
Defined.

(** X9 at a step whose [environment] decorator has no ["vars"]. *)
Lemma failed_preparation_submits_nothing_witness :
  let run :=
    step 202 "task" example_int_of_str (fun s => s)
      (example_context [bare_environment_decorator] (Return tt) (Return tt)
         (Return tt))
      "start" "sha" "s3://pkg" example_options (example_kwargs 0 None) in
  result run = Raise (KeyError "vars") /\
  events run
  = events
      (prepare "task" example_int_of_str
         (example_context [bare_environment_decorator] (Return tt) (Return tt)
            (Return tt))
         "start" "sha" "s3://pkg" example_options (example_kwargs 0 None)) /\
  count is_launch (events run) = 0 /\
  count is_wait (events run) = 0 /\
  count is_sync (events run) = 0.
Proof.
  refine (@failed_preparation_submits_nothing 202 "task" example_int_of_str
            (fun s => s) _ "start" "sha" "s3://pkg" example_options _ _ _).
  vm_compute. reflexivity.
Defined.

(** X10 at the second attempt of a task. *)
Lemma wait_follows_submission_witness :
  let ctx :=
    example_context [retry_decorator (PyInt 0)] (Return tt) (Return tt)
      (Return tt) in
  let kwargs := example_kwargs 1 None in
  let run :=
    step 202 "task" example_int_of_str (fun s => s) ctx
      "start" "sha" "s3://pkg" example_options kwargs in
  count is_wait (events run) = 1 /\
  exists p rest,
    events run
    = (events (prepare "task" example_int_of_str ctx "start" "sha" "s3://pkg"
                 example_options kwargs)
       ++ LaunchJob (request p)
       :: Wait "s3://logs/17/start/3/1_task_stdout.log"
            "s3://logs/17/start/3/1_task_stderr.log"
       :: rest)%list.
Proof.
  cbv zeta.
  edestruct (@wait_follows_submission 202 "task" example_int_of_str
               (fun s => s)
               (example_context [retry_decorator (PyInt 0)] (Return tt)
                  (Return tt) (Return tt))
               "start" "sha" "s3://pkg" example_options (example_kwargs 1 None))
    as [H _]; [vm_compute; reflexivity|].
  destruct (H eq_refl) as (Hc & rest & Hev).
  split; [exact Hc|]. eexists _, rest. exact Hev.
Defined.

(** X12 at a second retry under a delay of three minutes. *)
Lemma retry_pauses_before_submission_witness :
  exists p rest,
    events
      (step 202 "task" example_int_of_str (fun s => s)
         (example_context [retry_decorator (PyStr "3")] (Return tt)
            (Return tt) (Return tt))
         "start" "sha" "s3://pkg" example_options (example_kwargs 2 None))
    = EchoAlways "Sleeping 3 minutes before the next AWS Batch retry" false
      :: Sleep 180
      :: LaunchJob (request p)
      :: rest.
Proof.
  eexists.
  refine (@retry_pauses_before_submission 202 "task" example_int_of_str
            (fun s => s) _ "start" "sha" "s3://pkg" example_options _ _ 3%Z
            _ _ _).
  - vm_compute. reflexivity.
  - vm_compute. reflexivity.
  - discriminate.
Defined.

(** X13 at a first attempt. *)
Lemma first_attempt_no_pause_witness :
  exists p rest,
    events
      (step 202 "task" example_int_of_str (fun s => s)
         (example_context [retry_decorator (PyStr "3")] (Return tt)
            (Return tt) (Return tt))
         "start" "sha" "s3://pkg" example_options (example_kwargs 0 None))
    = LaunchJob (request p) :: rest.
Proof.
  eexists.
  refine (@first_attempt_no_pause 202 "task" example_int_of_str
            (fun s => s) _ "start" "sha" "s3://pkg" example_options _ _ _ _).
  - vm_compute. reflexivity.
  - reflexivity.
Defined.

(** X14 at a first attempt of a step decorated with
    [@retry(minutes_between_retries="soon")]. *)
Lemma invalid_minutes_fails_every_attempt_witness :
  step 202 "task" example_int_of_str (fun s => s)
    (example_context [retry_decorator (PyStr "soon")] (Return tt) (Return tt)
       (Return tt))
    "start" "sha" "s3://pkg" example_options (example_kwargs 0 None)
  = ([], Raise (ValueError "invalid literal for int() with base 10")).
Proof.
  refine (@invalid_minutes_fails_every_attempt 202 "task" example_int_of_str
            (fun s => s) _ "start" "sha" "s3://pkg" example_options _
            (retry_decorator (PyStr "soon")) [] _ _ _);
    reflexivity.
Defined.

(** X15 at a retry under a delay of minus one minute. *)
Lemma negative_minutes_never_submits_witness :
  step 202 "task" example_int_of_str (fun s => s)
    (example_context [retry_decorator (PyInt (-1))] (Return tt) (Return tt)
       (Return tt))
    "start" "sha" "s3://pkg" example_options (example_kwargs 1 None)
  = ([EchoAlways "Sleeping -1 minutes before the next AWS Batch retry" false],
     Raise (ValueError "sleep length must be non-negative")).
Proof.
  refine (@negative_minutes_never_submits 202 "task" example_int_of_str
            (fun s => s) _ "start" "sha" "s3://pkg" example_options _
            None None (PyDict []) (PyDict []) (-1)%Z _ _ _ _ _ _);
    first [reflexivity | discriminate].
Defined.

(** X16 at a step whose [environment] decorator has no ["vars"]. *)
Lemma environment_without_vars_raises_witness :
  step 202 "task" example_int_of_str (fun s => s)
    (example_context [bare_environment_decorator] (Return tt) (Return tt)
       (Return tt))
    "start" "sha" "s3://pkg" example_options
    (example_kwargs 0 (Some "17/start/3"))
  = ([], Raise (KeyError "vars")).
Proof.
  refine (@environment_without_vars_raises 202 "task" example_int_of_str
            (fun s => s) _ "start" "sha" "s3://pkg" example_options _
            bare_environment_decorator [] None _ _ _);
    reflexivity.
Defined.

(** X17 at a step whose declared ["vars"] is [None]. *)
Lemma env_not_dict_with_chunks_raises_witness :
  step 202 "task" example_int_of_str (fun s => s)
    (example_context [null_environment_decorator] (Return tt) (Return tt)
       (Return tt))
    "start" "sha" "s3://pkg" example_options
    (example_kwargs 0 (Some "17/start/3"))
  = ([], Raise (AttributeError "object has no attribute 'update'")).
Proof.
  refine (@env_not_dict_with_chunks_raises 202 "task" example_int_of_str
            (fun s => s) _ "start" "sha" "s3://pkg" example_options _
            "17/start/3" None PyNone _ _ _ _ _);
    first [reflexivity | discriminate].
Defined.

(** X18 at a step that declares a variable under the name of the first
    chunk. *)
Lemma input_paths_recovered_from_env_witness :
  let declared := [("A", "1"); ("METAFLOW_INPUT_PATHS_0", "stale")] in
  let ctx :=
    example_context [environment_decorator declared] (Return tt) (Return tt)
      (Return tt) in
  let kwargs := example_kwargs 0 (Some "17/start/3") in
  exists p,
    result (prepare "task" example_int_of_str ctx "start" "sha" "s3://pkg"
              example_options kwargs) = Return p /\
    exists split_vars env,
      job_env (request p) = PyDict env /\
      ("17/start/3" <> "" ->
       input_paths (final_kwargs p)
       = Some (reconstruction (chunks_of split_vars))) /\
      py_join ""
        (map (fun key => dict_get_default env key "")
           (dict_keys (chunks_of split_vars))) = "17/start/3".
Proof.
  cbv zeta. eexists. split.
  - vm_compute. reflexivity.
  - refine (@input_paths_recovered_from_env "task" example_int_of_str
              (example_context
                 [environment_decorator
                    [("A", "1"); ("METAFLOW_INPUT_PATHS_0", "stale")]]
                 (Return tt) (Return tt) (Return tt))
              "start" "sha" "s3://pkg" example_options
              (example_kwargs 0 (Some "17/start/3")) _ "17/start/3"
              [("A", "1"); ("METAFLOW_INPUT_PATHS_0", "stale")] _ _ _);
      vm_compute; reflexivity.
Defined.

(** X19 at a single input path. *)
Lemma short_input_single_chunk_witness :
  encode_input_paths (Some "17/start/3")
  = Return (Some [("METAFLOW_INPUT_PATHS_0", "17/start/3")],
            Some "${METAFLOW_INPUT_PATHS_0}").
Proof.
  refine (@short_input_single_chunk "17/start/3" _ _).
  - discriminate.
  - change (String.length "17/start/3") with 10. unfold max_size. lia.
Defined.

(** X20 at two runs that differ in the task they read from. *)
Lemma step_cli_independent_of_contents_witness :
  let ctx := example_context [] (Return tt) (Return tt) (Return tt) in
  exists p1 p2,
    result (prepare "task" example_int_of_str ctx "end" "sha" "s3://pkg"
              example_options
              (set_input_paths (example_kwargs 0 None) (Some "17/start/3")))
    = Return p1 /\
    result (prepare "task" example_int_of_str ctx "end" "sha" "s3://pkg"
              example_options
              (set_input_paths (example_kwargs 0 None) (Some "18/start/44")))
    = Return p2 /\
    final_kwargs p1 = final_kwargs p2 /\
    job_step_cli (request p1) = job_step_cli (request p2).
Proof.
  cbv zeta. eexists _, _.
  split; [vm_compute; reflexivity|]. split; [vm_compute; reflexivity|].
  refine (@step_cli_independent_of_contents "task" example_int_of_str
            (example_context [] (Return tt) (Return tt) (Return tt))
            "end" "sha" "s3://pkg" example_options (example_kwargs 0 None)
            "17/start/3" "18/start/44" _ _ _ _ _ _ _).
  - discriminate.
  - discriminate.
  - rewrite !ceil_div_small;
      first [reflexivity
            | change (String.length "17/start/3") with 10; lia
            | change (String.length "18/start/44") with 11; lia
            | unfold max_size;
              change (String.length "17/start/3") with 10;
              change (String.length "18/start/44") with 11; lia ].
  - vm_compute. reflexivity.
  - vm_compute. reflexivity.
Defined.

(** X21 at a value of 61440 characters. *)
Lemma exact_multiple_full_chunks_witness :
  exists d expr,
    encode_input_paths (Some example_full_paths) = Return (Some d, Some expr) /\
    List.length d = 2 /\
    Forall (fun kv => String.length (snd kv) = max_size) d.
Proof.
  refine (@exact_multiple_full_chunks example_full_paths 2 _ _).
  - lia.
  - apply repeat_char_length.
Defined.

(** X23 at a step without decorators. *)
Lemma no_environment_env_is_chunks_witness :
  let ctx := example_context [] (Return tt) (Return tt) (Return tt) in
  let kwargs := example_kwargs 0 (Some "17/start/3") in
  exists p,
    result (prepare "task" example_int_of_str ctx "end" "sha" "s3://pkg"
              example_options kwargs) = Return p /\
    exists split_vars value,
      encode_input_paths (input_paths kwargs) = Return (split_vars, value) /\
      job_env (request p) = PyDict (chunks_of split_vars).
Proof.
  cbv zeta. eexists. split.
  - vm_compute. reflexivity.
  - refine (@no_environment_env_is_chunks "task" example_int_of_str
              (example_context [] (Return tt) (Return tt) (Return tt))
              "end" "sha" "s3://pkg" example_options
              (example_kwargs 0 (Some "17/start/3")) _ _ _);
      vm_compute; reflexivity.
Defined.

(** X24 at a run interrupted from the keyboard while it submits. *)
Lemma interrupted_submission_skips_sync_witness :
  let run :=
    step 202 "task" example_int_of_str (fun s => s)
      (example_context [] (Raise KeyboardInterrupt) (Return tt) (Return tt))
      "start" "sha" "s3://pkg" example_options (example_kwargs 0 None) in
  result run = Raise KeyboardInterrupt /\ count is_sync (events run) = 0.
Proof.
  refine (@interrupted_submission_skips_sync 202 "task" example_int_of_str
            (fun s => s) _ "start" "sha" "s3://pkg" example_options _ _ _
            _ _ _);
    vm_compute; reflexivity.
Defined.
